(** * The pyramid viewer: camera selection, shader loading, geometry upload

    A shallow embedding of [src/main.cpp].  Scalars are IEEE-754 binary32
    values, every operation rounded to nearest-even on its own; the
    file-scope globals, the error stream, the files on disk and the GL
    context form an explicit world that each function threads through a
    small state monad whose failure case stands for undefined behaviour
    (an out-of-range subscript, a read of unwritten storage). *)

From Stdlib Require Import ZArith Floats.SpecFloat String Ascii.
From stdpp Require Import base option list strings gmap.

Local Open Scope Z_scope.

(** ** binary32 arithmetic: the C++ [float] *)

Module f32.

Definition prec : Z := 24.
Definition emax : Z := 128.

Definition t : Type := spec_float.

Definition add : t -> t -> t := SFadd prec emax.
Definition sub : t -> t -> t := SFsub prec emax.
Definition mul : t -> t -> t := SFmul prec emax.
Definition div : t -> t -> t := SFdiv prec emax.
Definition sqrt : t -> t := SFsqrt prec emax.
Definition neg : t -> t := SFopp.

(** [static_cast<float>(n)] of an integer. *)
Definition of_int (n : Z) : t := binary_normalize prec emax n 0 false.

(** A decimal literal [n / 10^k] followed by the suffix [f]: the binary32
    value nearest to the quotient. *)
Definition lit (n : Z) (k : nat) : t := div (of_int n) (of_int (10 ^ Z.of_nat k)).

Definition zero : t := of_int 0.
Definition one : t := of_int 1.

#[global] Instance eq_dec : EqDecision t.
Proof. solve_decision. Defined.

(* Evaluated on demand only, by [vm_compute]. *)
#[global] Arguments add : simpl never.
#[global] Arguments sub : simpl never.
#[global] Arguments mul : simpl never.
#[global] Arguments div : simpl never.
#[global] Arguments sqrt : simpl never.
#[global] Arguments of_int : simpl never.
#[global] Arguments lit : simpl never.

End f32.

(** ** The part of GLM the program calls

    [vec3], [vec4] and [mat4] with the generic (non-SIMD) definitions of the
    operators, [dot], [inversesqrt], [normalize] and [translate]. *)

Module glm.

Record vec3 : Type := Vec3 { x : f32.t; y : f32.t; z : f32.t }.

Record vec4 : Type := Vec4 { x4 : f32.t; y4 : f32.t; z4 : f32.t; w4 : f32.t }.

(** Column-major, as [glm::mat4]: [col3] is the translation column. *)
Record mat4 : Type := Mat4 { col0 : vec4; col1 : vec4; col2 : vec4; col3 : vec4 }.

#[global] Instance vec3_eq_dec : EqDecision vec3.
Proof. solve_decision. Defined.

(** [glm::vec3(a, b, c)] with integral literals [a.0f]. *)
Definition vec3i (a b c : Z) : vec3 := Vec3 (f32.of_int a) (f32.of_int b) (f32.of_int c).

Definition vec4i (a b c d : Z) : vec4 :=
  Vec4 (f32.of_int a) (f32.of_int b) (f32.of_int c) (f32.of_int d).

(** [operator-(vec3, vec3)] and [operator+(vec3, vec3)] *)
Definition sub (a b : vec3) : vec3 :=
  Vec3 (f32.sub (x a) (x b)) (f32.sub (y a) (y b)) (f32.sub (z a) (z b)).

Definition add (a b : vec3) : vec3 :=
  Vec3 (f32.add (x a) (x b)) (f32.add (y a) (y b)) (f32.add (z a) (z b)).

(** [operator*(vec3, float)] *)
Definition scale (v : vec3) (s : f32.t) : vec3 :=
  Vec3 (f32.mul (x v) s) (f32.mul (y v) s) (f32.mul (z v) s).

(** [dot]: [tmp = a * b; return tmp.x + tmp.y + tmp.z] *)
Definition dot (a b : vec3) : f32.t :=
  f32.add (f32.add (f32.mul (x a) (x b)) (f32.mul (y a) (y b))) (f32.mul (z a) (z b)).

(** [inversesqrt(x) = 1 / sqrt(x)] *)
Definition inversesqrt (s : f32.t) : f32.t := f32.div f32.one (f32.sqrt s).

(** [normalize(v) = v * inversesqrt(dot(v, v))] *)
Definition normalize (v : vec3) : vec3 := scale v (inversesqrt (dot v v)).

Definition scale4 (v : vec4) (s : f32.t) : vec4 :=
  Vec4 (f32.mul (x4 v) s) (f32.mul (y4 v) s) (f32.mul (z4 v) s) (f32.mul (w4 v) s).

Definition add4 (a b : vec4) : vec4 :=
  Vec4 (f32.add (x4 a) (x4 b)) (f32.add (y4 a) (y4 b))
       (f32.add (z4 a) (z4 b)) (f32.add (w4 a) (w4 b)).

(** [glm::mat4(1.0f)] *)
Definition mat4_1 : mat4 :=
  Mat4 (vec4i 1 0 0 0) (vec4i 0 1 0 0) (vec4i 0 0 1 0) (vec4i 0 0 0 1).

(** [translate(m, v)]:
    [Result = m; Result[3] = m[0] * v[0] + m[1] * v[1] + m[2] * v[2] + m[3]] *)
Definition translate (m : mat4) (v : vec3) : mat4 :=
  Mat4 (col0 m) (col1 m) (col2 m)
       (add4 (add4 (add4 (scale4 (col0 m) (x v)) (scale4 (col1 m) (y v)))
                   (scale4 (col2 m) (z v)))
             (col3 m)).

(** [m * v] for a column vector [v] *)
Definition mulv (m : mat4) (v : vec4) : vec4 :=
  add4 (add4 (add4 (scale4 (col0 m) (x4 v)) (scale4 (col1 m) (y4 v)))
             (scale4 (col2 m) (z4 v)))
       (scale4 (col3 m) (w4 v)).

Definition xyz (v : vec4) : vec3 := Vec3 (x4 v) (y4 v) (z4 v).

End glm.

(** ** State threading

    [M S A]: a computation over a state [S] that returns an [A], or has no
    defined behaviour ([None]). *)

Definition M (S A : Type) : Type := S -> option (A * S).

#[global] Instance M_ret {S} : MRet (M S) := fun A a s => Some (a, s).

#[global] Instance M_bind {S} : MBind (M S) := fun A B f c s =>
  match c s with
  | Some (a, s') => f a s'
  | None => None
  end.

Definition get {S} : M S S := fun s => Some (s, s).
Definition gets {S A} (f : S -> A) : M S A := fun s => Some (f s, s).
Definition modify {S} (f : S -> S) : M S unit := fun s => Some (tt, f s).
Definition undefined {S A} : M S A := fun _ => None.

(** A value that has to exist for the behaviour to be defined. *)
Definition defined {S A} (o : option A) : M S A :=
  match o with
  | Some a => mret a
  | None => undefined
  end.

(** [when c body]: an [if] without [else]. *)
Definition when {S} (c : bool) (body : M S unit) : M S unit :=
  if c then body else mret tt.

(** The state in which a computation ends. *)
Definition exec {S A} (c : M S A) (s : S) : option S := snd <$> c s.

(** ** The GL context, as far as the program observes it

    Enumerants carry the values of the OpenGL registry ([glad.h] only
    declares them).  What the driver decides is a field of the context and
    an input of the model: what its GLSL compiler answers for a stage type
    and a source text, where it puts a uniform, and which object names it
    hands out.  [names c k] is its answer to the [k]-th request for a name
    ([glCreateShader], [glCreateProgram], [glGenVertexArrays],
    [glGenBuffers]), whatever the kind of object.  GL promises that a
    generated name is not zero and not in use in the name space of its
    kind, so that a vertex array and a buffer may well share a name and a
    freed name may come again, and that a created object has the name 0
    only when it could not be created.  The context does not enforce the
    promise; a property that needs it says so. *)

Module GL.

Definition VERTEX_SHADER : Z := 0x8B31.
Definition FRAGMENT_SHADER : Z := 0x8B30.
Definition GEOMETRY_SHADER : Z := 0x8DD9.
Definition COMPILE_STATUS : Z := 0x8B81.
Definition INFO_LOG_LENGTH : Z := 0x8B84.
Definition ARRAY_BUFFER : Z := 0x8892.
Definition ELEMENT_ARRAY_BUFFER : Z := 0x8893.
Definition STATIC_DRAW : Z := 0x88E4.
Definition COLOR_BUFFER_BIT : Z := 0x4000.
Definition TRIANGLES : Z := 0x0004.
Definition UNSIGNED_INT : Z := 0x1405.
Definition FLOAT : Z := 0x1406.

(** What [GL_COMPILE_STATUS] and the information log of a shader object
    say: compiled, or not, with a log that may be empty. *)
Inductive CompileOutcome : Type :=
| Compiled
| Failed (log : string).

Record Shader : Type := mkShader {
  sh_type : Z;
  sh_source : string;
  sh_outcome : CompileOutcome;
}.

(** The data store of a buffer object, by element type. *)
Inductive BufferData : Type :=
| Floats (data : list f32.t)
| UInts (data : list Z).

(** The commands that set up what is drawn, and the draw itself, with
    their arguments.  These are not all the calls of the program: the
    creation of objects, the buffer bindings and uploads and the queries
    ([glGetShaderiv], [glGetUniformLocation], ...) are modelled by what
    they do to the objects and by what they return, and are not listed
    here. *)
Inductive Call : Type :=
| ClearColor (r g b a : f32.t)
| Clear (mask : Z)
| UseProgram (program : Z)
| UniformMatrix4fv (location : Z) (value : glm.mat4)
| BindVertexArray (array : Z)
| VertexAttribPointer (index size type normalized stride offset : Z)
| EnableVertexAttribArray (index : Z)
| DrawElements (mode count type offset : Z)
| Viewport (x y width height : Z).

Record Context : Type := mkContext {
  glsl : Z -> string -> CompileOutcome;
  uniform_location : Z -> string -> Z;
  names : nat -> Z;
  requests : nat;               (* the requests for a name answered so far *)
  shaders : gmap Z Shader;
  buffers : gmap Z BufferData;
  array_buffer_binding : Z;
  element_array_buffer_binding : Z;
  issued : list Call;
}.

Definition set_requests (n : nat) (c : Context) : Context :=
  mkContext (glsl c) (uniform_location c) (names c) n (shaders c) (buffers c)
            (array_buffer_binding c) (element_array_buffer_binding c) (issued c).

Definition set_shaders (f : gmap Z Shader -> gmap Z Shader) (c : Context) : Context :=
  mkContext (glsl c) (uniform_location c) (names c) (requests c) (f (shaders c)) (buffers c)
            (array_buffer_binding c) (element_array_buffer_binding c) (issued c).

Definition set_buffers (f : gmap Z BufferData -> gmap Z BufferData) (c : Context) : Context :=
  mkContext (glsl c) (uniform_location c) (names c) (requests c) (shaders c) (f (buffers c))
            (array_buffer_binding c) (element_array_buffer_binding c) (issued c).

Definition set_binding (target name : Z) (c : Context) : Context :=
  mkContext (glsl c) (uniform_location c) (names c) (requests c) (shaders c) (buffers c)
            (if target =? ARRAY_BUFFER then name else array_buffer_binding c)
            (if target =? ELEMENT_ARRAY_BUFFER then name else element_array_buffer_binding c)
            (issued c).

Definition issue (k : Call) (c : Context) : Context :=
  mkContext (glsl c) (uniform_location c) (names c) (requests c) (shaders c) (buffers c)
            (array_buffer_binding c) (element_array_buffer_binding c) (issued c ++ [k]).

(** The name the driver hands out at the [k]-th request from now on,
    counted from 0. *)
Definition upcoming (c : Context) (k : nat) : Z := names c (k + requests c).

Definition is_shader_type (type : Z) : bool :=
  (type =? VERTEX_SHADER) || (type =? FRAGMENT_SHADER) || (type =? GEOMETRY_SHADER).

(** One request for an object name: the driver answers. *)
Definition gen_name : M Context Z :=
  c ← get;
  modify (set_requests (S (requests c)));;
  mret (names c (requests c)).

(** [glCreateShader]: an empty, not yet compiled shader object under the
    name the driver gives it.  The result is 0, and there is no object,
    for a [type] that is no shader stage (an error flag is set) and when
    the driver cannot create the object. *)
Definition glCreateShader (type : Z) : M Context Z :=
  if is_shader_type type then
    id ← gen_name;
    if decide (id = 0) then mret 0
    else
      modify (set_shaders (insert id (mkShader type "" (Failed ""))));;
      mret id
  else mret 0.

(** [glShaderSource(id, 1, &src, nullptr)]: with a null [length] array the
    one string [src] is a C string, read up to its terminator. *)
Definition glShaderSource (id : Z) (src : string) : M Context unit :=
  modify (set_shaders (alter (fun s => mkShader (sh_type s) src (sh_outcome s)) id)).

(** [glCompileShader]: the driver compiles the attached source and keeps
    the outcome, information log included, in the object. *)
Definition glCompileShader (id : Z) : M Context unit :=
  c ← get;
  modify (set_shaders
            (alter (fun s => mkShader (sh_type s) (sh_source s)
                                      (glsl c (sh_type s) (sh_source s))) id)).

(** The length GL reports for an information log: its characters and the
    terminator, or 0 when there is no log. *)
Definition info_log_length (log : string) : Z :=
  if decide (log = "") then 0 else Z.of_nat (String.length log) + 1.

(** [glGetShaderiv(id, pname, &out)]: the value written to [out], [None]
    when nothing is written (no such shader, unknown [pname]). *)
Definition glGetShaderiv (id pname : Z) : M Context (option Z) :=
  c ← get;
  mret (match shaders c !! id with
        | None => None
        | Some s =>
            if pname =? COMPILE_STATUS then
              Some (match sh_outcome s with Compiled => 1 | Failed _ => 0 end)
            else if pname =? INFO_LOG_LENGTH then
              Some (match sh_outcome s with
                    | Compiled => 0
                    | Failed log => info_log_length log
                    end)
            else None
        end).

(** [glGetShaderInfoLog(id, bufSize, &length, message)]: the C string left
    in a buffer of [bufSize] bytes: at most [bufSize - 1] characters of the
    log and a terminator; with [bufSize <= 0] nothing is written. *)
Definition glGetShaderInfoLog (id bufSize : Z) : M Context (option string) :=
  c ← get;
  mret (match shaders c !! id with
        | None => None
        | Some s =>
            if bufSize <=? 0 then None
            else Some (match sh_outcome s with
                       | Compiled => ""
                       | Failed log => String.substring 0 (Z.to_nat (bufSize - 1)) log
                       end)
        end).

(** [glDeleteShader]: the object (attached to no program) is freed. *)
Definition glDeleteShader (id : Z) : M Context unit :=
  modify (set_shaders (delete id)).

Definition glGenBuffers : M Context Z := gen_name.
Definition glGenVertexArrays : M Context Z := gen_name.

Definition glBindBuffer (target buffer : Z) : M Context unit :=
  modify (set_binding target buffer).

(** [glBufferData(target, size, data, usage)]: a new data store of [size]
    bytes for the buffer bound to [target], filled from [data];
    [elems] is [size] in elements of 4 bytes. *)
Definition glBufferData (target : Z) (size : Z) (data : BufferData) (usage : Z)
  : M Context unit :=
  c ← get;
  let bound := if target =? ARRAY_BUFFER then array_buffer_binding c
               else element_array_buffer_binding c in
  let elems := Z.to_nat (size / 4) in
  let store := match data with
               | Floats l => Floats (take elems l)
               | UInts l => UInts (take elems l)
               end in
  modify (set_buffers (insert bound store)).

(** [glGetUniformLocation]: answered by the driver. *)
Definition glGetUniformLocation (program : Z) (name : string) : M Context Z :=
  c ← get; mret (uniform_location c program name).

(** The remaining calls change no object; they are recorded in order. *)
Definition call (k : Call) : M Context unit := modify (issue k).

End GL.

(** ** GLFW: key codes and key states, from [GLFW/glfw3.h] *)

Module GLFW.

Definition RELEASE : Z := 0.
Definition PRESS : Z := 1.
Definition KEY_1 : Z := 49.
Definition KEY_2 : Z := 50.
Definition KEY_3 : Z := 51.
Definition KEY_ESCAPE : Z := 256.

End GLFW.

(** ** The world of the program *)

(** [T name[3]]: subscripting outside [0..2] has no defined behaviour. *)
Record array3 (A : Type) : Type := Array3 { elt0 : A; elt1 : A; elt2 : A }.
Arguments Array3 {A} _ _ _.
Arguments elt0 {A} _.
Arguments elt1 {A} _.
Arguments elt2 {A} _.

Definition subscript {A} (a : array3 A) (i : Z) : option A :=
  match i with
  | 0 => Some (elt0 a)
  | 1 => Some (elt1 a)
  | 2 => Some (elt2 a)
  | _ => None
  end.

(** The file-scope variables; none of them is [const]. *)
Record Globals : Type := mkGlobals {
  sceneCenter : glm.vec3;
  cameraPositions : array3 glm.vec3;
  cameraFront : glm.vec3;
  cameraUp : glm.vec3;
  currentCameraPosition : Z;
}.

Record World : Type := mkWorld {
  globals : Globals;
  windowShouldClose : bool;
  files : gmap string string;   (* the files that can be opened, with their contents *)
  cerr : string;                (* what was written to [std::cerr] so far *)
  gl : GL.Context;
}.

Definition set_globals (f : Globals -> Globals) (w : World) : World :=
  mkWorld (f (globals w)) (windowShouldClose w) (files w) (cerr w) (gl w).

Definition set_gl (c : GL.Context) (w : World) : World :=
  mkWorld (globals w) (windowShouldClose w) (files w) (cerr w) c.

(** Run a GL call in the context of the world. *)
Definition in_gl {A} (c : M GL.Context A) : M World A := fun w =>
  match c (gl w) with
  | Some (a, g) => Some (a, set_gl g w)
  | None => None
  end.

(** [std::cerr << text] *)
Definition cerr_put (text : string) : M World unit :=
  modify (fun w => mkWorld (globals w) (windowShouldClose w) (files w)
                           (cerr w ++ text) (gl w)).

Definition nl : string := String (ascii_of_nat 10) EmptyString.

(** [std::endl] *)
Definition endl : string := nl.

Definition glfwSetWindowShouldClose (value : bool) : M World unit :=
  modify (fun w => mkWorld (globals w) value (files w) (cerr w) (gl w)).

Definition assign_currentCameraPosition (i : Z) : M World unit :=
  modify (set_globals (fun g =>
    mkGlobals (sceneCenter g) (cameraPositions g) (cameraFront g) (cameraUp g) i)).

Definition assign_cameraFront (v : glm.vec3) : M World unit :=
  modify (set_globals (fun g =>
    mkGlobals (sceneCenter g) (cameraPositions g) v (cameraUp g) (currentCameraPosition g))).

Definition assign_cameraUp (v : glm.vec3) : M World unit :=
  modify (set_globals (fun g =>
    mkGlobals (sceneCenter g) (cameraPositions g) (cameraFront g) v (currentCameraPosition g))).

(** The initialisers of lines 20-30. *)
Definition initial_sceneCenter : glm.vec3 := glm.vec3i 0 0 0.

Definition initial_cameraPositions : array3 glm.vec3 :=
  Array3 (glm.vec3i 0 0 10)    (* front view *)
         (glm.vec3i 0 10 0)    (* top view *)
         (glm.vec3i 10 0 0).   (* side view *)

Definition initial_globals : Globals :=
  mkGlobals initial_sceneCenter initial_cameraPositions
            (glm.vec3i 0 0 (-1)) (glm.vec3i 0 1 0) 0.

(** ** [processInput] *)

(** [cameraFront = glm::normalize(sceneCenter - cameraPositions[currentCameraPosition])] *)
Definition recalculate_cameraFront : M World unit :=
  g ← gets globals;
  position ← defined (subscript (cameraPositions g) (currentCameraPosition g));
  assign_cameraFront (glm.normalize (glm.sub (sceneCenter g) position)).

(** [glfwGetKey] is the key state of the window at the time of the call. *)
Definition processInput (glfwGetKey : Z -> Z) : M World unit :=
  when (glfwGetKey GLFW.KEY_ESCAPE =? GLFW.PRESS)
    (glfwSetWindowShouldClose true);;
  when (glfwGetKey GLFW.KEY_1 =? GLFW.PRESS)
    (assign_currentCameraPosition 0;;
     recalculate_cameraFront);;
  when (glfwGetKey GLFW.KEY_2 =? GLFW.PRESS)
    (assign_currentCameraPosition 1;;
     recalculate_cameraFront;;
     assign_cameraUp (glm.vec3i 0 0 (-1)));;
  when (glfwGetKey GLFW.KEY_3 =? GLFW.PRESS)
    (assign_currentCameraPosition 2;;
     recalculate_cameraFront).

(** ** [readFile] *)

Definition readFile (filePath : string) : M World string :=
  fileStream ← gets (fun w => files w !! filePath);
  match fileStream with
  | None =>
      cerr_put ("Could not read file " ++ filePath ++ ". File does not exist." ++ endl);;
      mret ""
  | Some contents =>
      (* sstr << fileStream.rdbuf(); content = sstr.str(); *)
      mret contents
  end.

(** ** [compileShader] *)

(** The C string at the start of the characters [s]: those before the
    first NUL.  This is what a [const char *] to the contents of a
    [std::string] denotes, as [source.c_str()], and what [operator<<]
    prints for a [char *]. *)
Fixpoint c_str (s : string) : string :=
  match s with
  | EmptyString => EmptyString
  | String a rest => if Ascii.eqb a Ascii.zero then EmptyString else String a (c_str rest)
  end.

Definition compileShader (type : Z) (source : string) : M World Z :=
  id ← in_gl (GL.glCreateShader type);
  let src := c_str source in
  in_gl (GL.glShaderSource id src);;
  in_gl (GL.glCompileShader id);;
  (* int result: read below, so the query has to have written it *)
  result ← in_gl (GL.glGetShaderiv id GL.COMPILE_STATUS) ≫= defined;
  if result =? 0 then
    length ← in_gl (GL.glGetShaderiv id GL.INFO_LOG_LENGTH) ≫= defined;
    (* char *message = alloca(length): printed below as a C string *)
    message ← in_gl (GL.glGetShaderInfoLog id length) ≫= defined;
    cerr_put ("Failed to compile "
              ++ (if type =? GL.VERTEX_SHADER then "vertex" else "fragment")
              ++ " shader!" ++ nl ++ c_str message ++ endl);;
    in_gl (GL.glDeleteShader id);;
    mret 0
  else
    mret id.

(** ** [main]: the geometry and the render loop *)

(** [0.5f] and [-0.5f] *)
Definition half : f32.t := f32.lit 5 1.
Definition minus_half : f32.t := f32.neg half.

(** [float vertices[]]: position and colour of the five vertices. *)
Definition vertices : list f32.t :=
  let o := f32.of_int 0 in
  let l := f32.of_int 1 in
  [ o; half; o;                        l; o; o;     (* top *)
    minus_half; minus_half; half;      o; l; o;     (* front-left *)
    half; minus_half; half;            o; o; l;     (* front-right *)
    half; minus_half; minus_half;      l; l; o;     (* back-right *)
    minus_half; minus_half; minus_half; l; o; l ].  (* back-left *)

(** [unsigned int indices[]] *)
Definition indices : list Z :=
  [ 0; 1; 2;     (* front face *)
    0; 2; 3;     (* right face *)
    0; 3; 4;     (* back face *)
    0; 4; 1;     (* left face *)
    1; 2; 3;     (* base, right half *)
    1; 3; 4 ].   (* base, left half *)

(** [sizeof] of an array of 4-byte elements. *)
Definition sizeof {A} (a : list A) : Z := 4 * Z.of_nat (length a).

(** The floats of one vertex: the stride of both attributes is
    [6 * sizeof(float)]. *)
Definition floats_per_vertex : Z := 6.

Definition vertex_count : Z := Z.of_nat (length vertices) / floats_per_vertex.

(** The triangles [glDrawElements(GL_TRIANGLES, ...)] assembles from an
    index list: consecutive triples. *)
Fixpoint triangles (l : list Z) : list (Z * Z * Z) :=
  match l with
  | a :: b :: c :: rest => (a, b, c) :: triangles rest
  | _ => []
  end.

(** Lines 92-112: the objects are generated, both arrays uploaded once and
    the two attributes configured.  Returns [(VAO, VBO, EBO)]. *)
Definition uploadGeometry : M World (Z * Z * Z) :=
  VAO ← in_gl GL.glGenVertexArrays;
  VBO ← in_gl GL.glGenBuffers;
  EBO ← in_gl GL.glGenBuffers;
  in_gl (GL.call (GL.BindVertexArray VAO));;
  in_gl (GL.glBindBuffer GL.ARRAY_BUFFER VBO);;
  in_gl (GL.glBufferData GL.ARRAY_BUFFER (sizeof vertices) (GL.Floats vertices)
                         GL.STATIC_DRAW);;
  in_gl (GL.glBindBuffer GL.ELEMENT_ARRAY_BUFFER EBO);;
  in_gl (GL.glBufferData GL.ELEMENT_ARRAY_BUFFER (sizeof indices) (GL.UInts indices)
                         GL.STATIC_DRAW);;
  in_gl (GL.call (GL.VertexAttribPointer 0 3 GL.FLOAT 0 (6 * 4) 0));;
  in_gl (GL.call (GL.EnableVertexAttribArray 0));;
  in_gl (GL.call (GL.VertexAttribPointer 1 3 GL.FLOAT 0 (6 * 4) (3 * 4)));;
  in_gl (GL.call (GL.EnableVertexAttribArray 1));;
  mret (VAO, VBO, EBO).

(** [for (int i = from; i < from + count; ++i) body(i)] *)
Definition for_each {S} (from : Z) (count : nat) (body : Z -> M S unit) : M S unit :=
  foldr (fun i rest => body i;; rest) (mret tt) (seqZ from (Z.of_nat count)).

(** Line 141-142: [glm::translate(glm::mat4(1.0f), glm::vec3(i * 2.0f - 2.0f, 0.0f, 0.0f))] *)
Definition model (i : Z) : glm.mat4 :=
  glm.translate glm.mat4_1
    (glm.Vec3 (f32.sub (f32.mul (f32.of_int i) (f32.of_int 2)) (f32.of_int 2))
              (f32.of_int 0) (f32.of_int 0)).

(** ** [framebuffer_size_callback] *)

Definition framebuffer_size_callback (width height : Z) : M World unit :=
  in_gl (GL.call (GL.Viewport 0 0 width height)).

(** ** The window system

    What it has for one iteration of the render loop: the key state at the
    time [processInput] asks for it, and what [glfwPollEvents] delivers at
    the end of the iteration: the new framebuffer sizes, one for every
    resize, and whether the user asked to close the window. *)
Record Input : Type := mkInput {
  keys : Z -> Z;
  resized : list (Z * Z);
  close_requested : bool;
}.

(** [glfwSwapBuffers]: the image drawn is shown.  The world keeps no
    image, so nothing in it changes. *)
Definition glfwSwapBuffers : M World unit := mret tt.

(** [glfwPollEvents]: the callback registered at line 58 runs for every
    resize, and a close request sets the close flag of the window. *)
Definition glfwPollEvents (input : Input) : M World unit :=
  foldr (fun size rest => framebuffer_size_callback size.1 size.2;; rest) (mret tt)
        (resized input);;
  when (close_requested input) (glfwSetWindowShouldClose true).

Section RenderLoop.

(** [glm::lookAt], [glm::perspective] and [glm::radians]: their results
    are only handed to the driver. *)
Variable lookAt : glm.vec3 -> glm.vec3 -> glm.vec3 -> glm.mat4.
Variable perspective : f32.t -> f32.t -> f32.t -> f32.t -> glm.mat4.
Variable radians : f32.t -> f32.t.

Variables shaderProgram VAO : Z.

(** Lines 138-148, one pyramid. *)
Definition drawPyramid (i : Z) : M World unit :=
  modelLoc ← in_gl (GL.glGetUniformLocation shaderProgram "model");
  in_gl (GL.call (GL.UniformMatrix4fv modelLoc (model i)));;
  in_gl (GL.call (GL.BindVertexArray VAO));;
  in_gl (GL.call (GL.DrawElements GL.TRIANGLES 18 GL.UNSIGNED_INT 0)).

(** Lines 117-148: the input handling and the drawing of one iteration of
    the render loop, for the key state [glfwGetKey] the window has when
    [processInput] runs. *)
Definition frame (glfwGetKey : Z -> Z) : M World unit :=
  processInput glfwGetKey;;
  in_gl (GL.call (GL.ClearColor (f32.lit 2 1) (f32.lit 3 1) (f32.lit 3 1) (f32.of_int 1)));;
  in_gl (GL.call (GL.Clear GL.COLOR_BUFFER_BIT));;
  in_gl (GL.call (GL.UseProgram shaderProgram));;
  g ← gets globals;
  eye ← defined (subscript (cameraPositions g) (currentCameraPosition g));
  let target := glm.add eye (cameraFront g) in
  let view := lookAt eye target (cameraUp g) in
  viewLoc ← in_gl (GL.glGetUniformLocation shaderProgram "view");
  in_gl (GL.call (GL.UniformMatrix4fv viewLoc view));;
  let projection :=
    perspective (radians (f32.of_int 45)) (f32.div (f32.of_int 800) (f32.of_int 600))
                (f32.lit 1 1) (f32.of_int 100) in
  projLoc ← in_gl (GL.glGetUniformLocation shaderProgram "projection");
  in_gl (GL.call (GL.UniformMatrix4fv projLoc projection));;
  for_each 0 3 drawPyramid.

(** Lines 117-151, the body of the render loop. *)
Definition iteration (input : Input) : M World unit :=
  frame (keys input);;
  glfwSwapBuffers;;
  glfwPollEvents input.

(** [while (!glfwWindowShouldClose(window)) { ... }], lines 115-152, over
    what the window system has for the successive iterations. *)
Fixpoint renderLoop (polls : list Input) : M World unit :=
  match polls with
  | [] => mret tt
  | input :: later =>
      closing ← gets windowShouldClose;
      if (closing : bool) then mret tt
      else iteration input;; renderLoop later
  end.

End RenderLoop.

(** ** Vocabulary of the properties *)

(** The position the camera looks from. *)
Definition camera_position (w : World) : option glm.vec3 :=
  subscript (cameraPositions (globals w)) (currentCameraPosition (globals w)).

(** A key state: the listed keys are down, all others up. *)
Definition pressed (keys : list Z) : Z -> Z :=
  fun key : Z => if decide (key ∈ keys) then GLFW.PRESS else GLFW.RELEASE.

(** The three camera-selection keys, by their digit. *)
Definition selection_key (i : Z) : Z := GLFW.KEY_1 + (i - 1).

Definition is_pressed (glfwGetKey : Z -> Z) (key : Z) : bool :=
  glfwGetKey key =? GLFW.PRESS.

(** A world at program start: the globals as initialised, the window open. *)
Definition starts (w : World) : Prop :=
  globals w = initial_globals /\ windowShouldClose w = false.

(** The worlds the program can be in: a start, followed by any of its
    operations in any order. *)
Inductive reachable : World -> Prop :=
| reachable_start w :
    starts w -> reachable w
| reachable_processInput w glfwGetKey w' :
    reachable w -> exec (processInput glfwGetKey) w = Some w' -> reachable w'
| reachable_readFile w filePath w' :
    reachable w -> exec (readFile filePath) w = Some w' -> reachable w'
| reachable_compileShader w type source w' :
    reachable w -> exec (compileShader type source) w = Some w' -> reachable w'
| reachable_uploadGeometry w w' :
    reachable w -> exec uploadGeometry w = Some w' -> reachable w'
| reachable_frame w lookAt perspective radians shaderProgram VAO glfwGetKey w' :
    reachable w ->
    exec (frame lookAt perspective radians shaderProgram VAO glfwGetKey) w = Some w' ->
    reachable w'
| reachable_glfwPollEvents w input w' :
    reachable w -> exec (glfwPollEvents input) w = Some w' -> reachable w'.

(** The text of the stage in the compile diagnostic. *)
Definition stage_name (type : Z) : string :=
  if type =? GL.VERTEX_SHADER then "vertex" else "fragment".

(** The highest-numbered selection key that is down, if any. *)
Definition highest_pressed (glfwGetKey : Z -> Z) : option Z :=
  if is_pressed glfwGetKey GLFW.KEY_3 then Some 3
  else if is_pressed glfwGetKey GLFW.KEY_2 then Some 2
  else if is_pressed glfwGetKey GLFW.KEY_1 then Some 1
  else None.

(** The matrix that only moves by [tx] along the x axis. *)
Definition translation_x (tx : Z) : glm.mat4 :=
  glm.Mat4 (glm.vec4i 1 0 0 0) (glm.vec4i 0 1 0 0) (glm.vec4i 0 0 1 0) (glm.vec4i tx 0 0 1).

(** What [drawPyramid] issues for the model matrix [m]. *)
Definition pyramid_calls (modelLoc VAO : Z) (m : glm.mat4) : list GL.Call :=
  [ GL.UniformMatrix4fv modelLoc m;
    GL.BindVertexArray VAO;
    GL.DrawElements GL.TRIANGLES 18 GL.UNSIGNED_INT 0 ].

(** ** A concrete world, for the examples

    A driver that rejects the empty source and names its objects 1, 2, 3,
    ... in the order of the requests; one shader file on disk. *)

Definition example_glsl (type : Z) (source : string) : GL.CompileOutcome :=
  if decide (source = "") then GL.Failed "ERROR: 0:1: syntax error" else GL.Compiled.

Definition example_names (k : nat) : Z := Z.of_nat k + 1.

Definition example_context : GL.Context :=
  GL.mkContext example_glsl (fun _ _ => 0) example_names 0 ∅ ∅ 0 0 [].

Definition example_world : World :=
  mkWorld initial_globals false {[ "vertex_shader.glsl" := "void main() {}" ]} ""
          example_context.

(** Only the key of the digit [i] is down. *)
Definition only (i : Z) : Z -> Z := pressed [selection_key i].

(** The key state [glfwGetKey] with every key outside [keys] up. *)
Definition restrict (glfwGetKey : Z -> Z) (keys : list Z) : Z -> Z :=
  fun key : Z => if decide (key ∈ keys) then glfwGetKey key else GLFW.RELEASE.

(** ** The camera selection in the words of the specification

    The highest-numbered selection key that is down decides the position
    index and the forward vector, key 2 decides the up vector, Escape
    requests the close. *)

(** The globals the specification expects after a call. *)
Definition camera_after (glfwGetKey : Z -> Z) (g : Globals) : Globals :=
  let selected :=
    match highest_pressed glfwGetKey with
    | Some i => Some (i - 1)
    | None => None
    end in
  mkGlobals
    (sceneCenter g)
    (cameraPositions g)
    (match selected ≫= subscript (cameraPositions g) with
     | Some position => glm.normalize (glm.sub (sceneCenter g) position)
     | None => cameraFront g
     end)
    (if is_pressed glfwGetKey GLFW.KEY_2 then glm.vec3i 0 0 (-1) else cameraUp g)
    (default (currentCameraPosition g) selected).

(** The world the specification expects after a call. *)
Definition world_after (glfwGetKey : Z -> Z) (w : World) : World :=
  mkWorld (camera_after glfwGetKey (globals w))
          (is_pressed glfwGetKey GLFW.KEY_ESCAPE || windowShouldClose w)
          (files w) (cerr w) (gl w).

(** The forward vector points from the camera position to the scene center. *)
Definition aimed (g : Globals) : Prop :=
  exists position,
    subscript (cameraPositions g) (currentCameraPosition g) = Some position /\
    cameraFront g = glm.normalize (glm.sub (sceneCenter g) position).

(** The presets and the scene center hold the values they were initialised
    with. *)
Definition presets_intact (g : Globals) : Prop :=
  sceneCenter g = initial_sceneCenter /\ cameraPositions g = initial_cameraPositions.

(** [keeps obs c]: whenever [c] returns, the observation [obs] of the world
    is what it was before. *)
Definition keeps {T A} (obs : World -> T) (c : M World A) : Prop :=
  forall w a w', c w = Some (a, w') -> obs w' = obs w.

(** The calls one frame issues, for the camera it starts to draw with. *)
Definition frame_calls (lookAt : glm.vec3 -> glm.vec3 -> glm.vec3 -> glm.mat4)
    (perspective : f32.t -> f32.t -> f32.t -> f32.t -> glm.mat4) (radians : f32.t -> f32.t)
    (shaderProgram VAO : Z) (location : Z -> string -> Z) (g : Globals) (eye : glm.vec3)
  : list GL.Call :=
  [ GL.ClearColor (f32.lit 2 1) (f32.lit 3 1) (f32.lit 3 1) (f32.of_int 1);
    GL.Clear GL.COLOR_BUFFER_BIT;
    GL.UseProgram shaderProgram;
    GL.UniformMatrix4fv (location shaderProgram "view")
      (lookAt eye (glm.add eye (cameraFront g)) (cameraUp g));
    GL.UniformMatrix4fv (location shaderProgram "projection")
      (perspective (radians (f32.of_int 45)) (f32.div (f32.of_int 800) (f32.of_int 600))
                   (f32.lit 1 1) (f32.of_int 100)) ]
  ++ flat_map (fun i => pyramid_calls (location shaderProgram "model") VAO (model i))
              [0; 1; 2].

(** ** More of GLM: [cross] and [lookAt]

    [glm::lookAt] is [lookAtRH]: the right-handed view matrix of an eye, a
    point to look at and an up vector. *)

Module matrix_transform.

(** [cross(a, b)] *)
Definition cross (a b : glm.vec3) : glm.vec3 :=
  glm.Vec3
    (f32.sub (f32.mul (glm.y a) (glm.z b)) (f32.mul (glm.y b) (glm.z a)))
    (f32.sub (f32.mul (glm.z a) (glm.x b)) (f32.mul (glm.z b) (glm.x a)))
    (f32.sub (f32.mul (glm.x a) (glm.y b)) (f32.mul (glm.x b) (glm.y a))).

(** [lookAtRH(eye, center, up)]: [f], [s] and [u] are the forward, side and
    up axes of the camera; they fill the rows of the rotation part of
    [mat4 Result(1)], the eye projected on them the last column. *)
Definition lookAt (eye center up : glm.vec3) : glm.mat4 :=
  let f := glm.normalize (glm.sub center eye) in
  let s := glm.normalize (cross f up) in
  let u := cross s f in
  let o := f32.of_int 0 in
  glm.Mat4
    (glm.Vec4 (glm.x s) (glm.x u) (f32.neg (glm.x f)) o)
    (glm.Vec4 (glm.y s) (glm.y u) (f32.neg (glm.y f)) o)
    (glm.Vec4 (glm.z s) (glm.z u) (f32.neg (glm.z f)) o)
    (glm.Vec4 (f32.neg (glm.dot s eye)) (f32.neg (glm.dot u eye)) (glm.dot f eye)
              (f32.of_int 1)).

Definition is_nan (v : f32.t) : bool :=
  match v with
  | S754_nan => true
  | _ => false
  end.

Definition vec4_has_nan (v : glm.vec4) : bool :=
  is_nan (glm.x4 v) || is_nan (glm.y4 v) || is_nan (glm.z4 v) || is_nan (glm.w4 v).

Definition mat4_has_nan (m : glm.mat4) : bool :=
  vec4_has_nan (glm.col0 m) || vec4_has_nan (glm.col1 m)
  || vec4_has_nan (glm.col2 m) || vec4_has_nan (glm.col3 m).

End matrix_transform.

(** The view matrix a frame computes from the globals (lines 127-128):
    [lookAt(cameraPositions[currentCameraPosition], target, cameraUp)] with
    [target = cameraPositions[currentCameraPosition] + cameraFront]. *)
Definition view_matrix (g : Globals) : option glm.mat4 :=
  eye ← subscript (cameraPositions g) (currentCameraPosition g);
  Some (matrix_transform.lookAt eye (glm.add eye (cameraFront g)) (cameraUp g)).

(** ** The camera as a state machine

    The three views, and whether the up vector has been turned to (0,0,-1)
    by a top-view selection. *)

Inductive View : Type := FrontView | TopView | SideView.

Definition view_index (v : View) : Z :=
  match v with FrontView => 0 | TopView => 1 | SideView => 2 end.

Definition view_forward (v : View) : glm.vec3 :=
  match v with
  | FrontView => glm.vec3i 0 0 (-1)
  | TopView => glm.vec3i 0 (-1) 0
  | SideView => glm.vec3i (-1) 0 0
  end.

Definition up_vector (turned : bool) : glm.vec3 :=
  if turned then glm.vec3i 0 0 (-1) else glm.vec3i 0 1 0.

Definition view_globals (v : View) (turned : bool) : Globals :=
  mkGlobals initial_sceneCenter initial_cameraPositions
            (view_forward v) (up_vector turned) (view_index v).

(** The view a key state selects, starting from [v]. *)
Definition selected_view (glfwGetKey : Z -> Z) (v : View) : View :=
  if is_pressed glfwGetKey GLFW.KEY_3 then SideView
  else if is_pressed glfwGetKey GLFW.KEY_2 then TopView
  else if is_pressed glfwGetKey GLFW.KEY_1 then FrontView
  else v.

(** The combinations that occur: the top view always has the turned up
    vector. *)
Definition occurs (v : View) (turned : bool) : Prop :=
  v = TopView -> turned = true.

(** [processInput] called once for every key state of the list, in order. *)
Definition inputs (polls : list (Z -> Z)) : M World unit :=
  foldr (fun glfwGetKey rest => processInput glfwGetKey;; rest) (mret tt) polls.

(** No key that [processInput] asks for is down. *)
Definition no_key (glfwGetKey : Z -> Z) : Prop :=
  is_pressed glfwGetKey GLFW.KEY_ESCAPE = false /\
  is_pressed glfwGetKey GLFW.KEY_1 = false /\
  is_pressed glfwGetKey GLFW.KEY_2 = false /\
  is_pressed glfwGetKey GLFW.KEY_3 = false.

(** The world after the calls [ks] have been issued, in order. *)
Definition issue_all (ks : list GL.Call) (w : World) : World :=
  set_gl (GL.mkContext (GL.glsl (gl w)) (GL.uniform_location (gl w))
                       (GL.names (gl w)) (GL.requests (gl w))
                       (GL.shaders (gl w)) (GL.buffers (gl w))
                       (GL.array_buffer_binding (gl w))
                       (GL.element_array_buffer_binding (gl w))
                       (GL.issued (gl w) ++ ks)) w.

(** Whether an iteration with this input leaves the close flag set: Escape
    is down when [processInput] runs, or the user asks to close the
    window. *)
Definition closes (input : Input) : bool :=
  is_pressed (keys input) GLFW.KEY_ESCAPE || close_requested input.

(** The number of frames the render loop draws for [polls]: it stops
    before the first frame when the window is [closing], and after the
    first iteration that leaves the close flag set. *)
Fixpoint frames_drawn (polls : list Input) (closing : bool) : nat :=
  if closing then 0%nat
  else match polls with
       | [] => 0%nat
       | input :: later => S (frames_drawn later (closes input))
       end.

(** The [glDrawElements] calls among [ks]. *)
Definition is_draw (k : GL.Call) : bool :=
  match k with
  | GL.DrawElements _ _ _ _ => true
  | _ => false
  end.

Definition draws (ks : list GL.Call) : nat := length (filter is_draw ks).

(** The viewports the resizes of an input make the callback set. *)
Definition viewports (input : Input) : list GL.Call :=
  (fun size => GL.Viewport 0 0 size.1 size.2) <$> resized input.

(** An input with the key state [glfwGetKey] and no other event. *)
Definition just_keys (glfwGetKey : Z -> Z) : Input := mkInput glfwGetKey [] false.

(** A point [p] as a homogeneous vector [(p, 1)]. *)
Definition point (p : glm.vec3) : glm.vec4 :=
  glm.Vec4 (glm.x p) (glm.y p) (glm.z p) (f32.of_int 1).

(** ** Shader objects and their names *)

(** No shader object has the name 0: GL never gives it to one. *)
Definition no_shader_zero (c : GL.Context) : Prop := GL.shaders c !! 0 = None.

(** What [compileShader] writes to [std::cerr] for a failed stage. *)
Definition compile_diagnostic (type : Z) (log : string) : string :=
  "Failed to compile " ++ stage_name type ++ " shader!" ++ nl ++ c_str log ++ nl.

(** The world after [compileShader] has compiled [source]: one request
    answered, one shader object more, which holds the C string of the
    source. *)
Definition world_compiled (type : Z) (source : string) (w : World) : World :=
  set_gl (GL.set_shaders (insert (GL.upcoming (gl w) 0)
                                 (GL.mkShader type (c_str source) GL.Compiled))
                         (GL.set_requests (S (GL.requests (gl w))) (gl w))) w.

(** The world after [compileShader] has failed with [log]: one request
    answered, the object deleted again, the diagnostic written. *)
Definition world_rejected (type : Z) (log : string) (w : World) : World :=
  mkWorld (globals w) (windowShouldClose w) (files w)
          (cerr w ++ compile_diagnostic type log)
          (GL.set_shaders (delete (GL.upcoming (gl w) 0))
                          (GL.set_requests (S (GL.requests (gl w))) (gl w))).

(** A driver for the examples that fails without a log. *)
Definition silent_glsl (type : Z) (source : string) : GL.CompileOutcome := GL.Failed "".

Definition silent_world : World :=
  mkWorld initial_globals false ∅ ""
          (GL.mkContext silent_glsl (fun _ _ => 0) example_names 0 ∅ ∅ 0 0 []).

(** ** Program objects and the life cycle of the process

    [createShaderProgram] and [main] need more of the platform: program
    objects with the shaders attached to them, the shaders whose deletion
    waits for their detachment, and the calls to GLFW, the loader and GL
    whose effect the program never reads back, kept in order as events. *)

Module Life.

Definition CONTEXT_VERSION_MAJOR : Z := 0x00022002.
Definition CONTEXT_VERSION_MINOR : Z := 0x00022003.
Definition OPENGL_FORWARD_COMPAT : Z := 0x00022006.
Definition OPENGL_PROFILE : Z := 0x00022008.
Definition OPENGL_CORE_PROFILE : Z := 0x00032001.

Inductive Event : Type :=
| Init
| WindowHint (hint value : Z)
| CreateWindow (width height : Z) (title : string)
| MakeContextCurrent
| SetFramebufferSizeCallback
| LoadGLLoader
| LinkProgram (program : Z)
| ValidateProgram (program : Z)
| DeleteVertexArrays (array : Z)
| DeleteBuffers (buffer : Z)
| DeleteProgram (program : Z)
| Terminate.

(** What the platform answers: whether it is macOS, whether the window
    can be created, whether the GL functions can be loaded. *)
Record Platform : Type := mkPlatform {
  apple : bool;
  creates_window : bool;
  loads_gl : bool;
}.

Record Process : Type := mkProcess {
  world : World;
  programs : gmap Z (list Z);   (* program objects: the shaders attached, in order *)
  flagged : gset Z;             (* shaders to delete once they are detached *)
  events : list Event;
}.

(** Run a computation on the world inside the process. *)
Definition in_world {A} (c : M World A) : M Process A := fun s =>
  match c (world s) with
  | Some (a, w) => Some (a, mkProcess w (programs s) (flagged s) (events s))
  | None => None
  end.

Definition event (e : Event) : M Process unit :=
  modify (fun s => mkProcess (world s) (programs s) (flagged s) (events s ++ [e])).

Definition set_programs (f : gmap Z (list Z) -> gmap Z (list Z)) (s : Process) : Process :=
  mkProcess (world s) (f (programs s)) (flagged s) (events s).

(** [glCreateProgram]: an empty program object under the name the driver
    gives it; 0, and no object, when the driver cannot create it. *)
Definition glCreateProgram : M Process Z :=
  program ← in_world (in_gl GL.gen_name);
  if decide (program = 0) then mret 0
  else
    modify (set_programs (insert program []));;
    mret program.

(** [glAttachShader]: no effect (but an error flag) unless [program] and
    [shader] name objects and the shader is not attached already. *)
Definition glAttachShader (program shader : Z) : M Process unit :=
  s ← get;
  match programs s !! program, GL.shaders (gl (world s)) !! shader with
  | Some attached, Some _ =>
      if decide (shader ∈ attached) then mret tt
      else modify (set_programs (insert program (attached ++ [shader])))
  | _, _ => mret tt
  end.

Definition is_attached (shader : Z) (ps : gmap Z (list Z)) : Prop :=
  map_Exists (fun _ attached => shader ∈ attached) ps.

(** [glDeleteShader], in general: 0 is ignored; a shader attached to a
    program is only flagged, and lives on until it is detached; any other
    shader is freed. *)
Definition glDeleteShader (shader : Z) : M Process unit :=
  s ← get;
  if decide (shader = 0) then mret tt
  else if decide (is_attached shader (programs s)) then
    modify (fun s => mkProcess (world s) (programs s) (flagged s ∪ {[shader]}) (events s))
  else in_world (in_gl (GL.glDeleteShader shader)).

End Life.

(** ** [createShaderProgram] *)

Definition createShaderProgram (vertexShader fragmentShader : string) : M Life.Process Z :=
  program ← Life.glCreateProgram;
  vs ← Life.in_world (compileShader GL.VERTEX_SHADER vertexShader);
  fs ← Life.in_world (compileShader GL.FRAGMENT_SHADER fragmentShader);
  Life.glAttachShader program vs;;
  Life.glAttachShader program fs;;
  Life.event (Life.LinkProgram program);;
  Life.event (Life.ValidateProgram program);;
  Life.glDeleteShader vs;;
  Life.glDeleteShader fs;;
  mret program.

(** ** [main] *)

Section Main.

(** [glm::perspective] and [glm::radians] stay open: they need the
    tangent. *)
Variable perspective : f32.t -> f32.t -> f32.t -> f32.t -> glm.mat4.
Variable radians : f32.t -> f32.t.

Variable platform : Life.Platform.

(** What the window system has for the successive iterations of the
    render loop. *)
Variable polls : list Input.

(** Lines 32-162.  The result is the exit code, or [None] when the inputs
    end with the window still open: the loop has not ended.  *)
Definition main : M Life.Process (option Z) :=
  Life.event Life.Init;;
  Life.event (Life.WindowHint Life.CONTEXT_VERSION_MAJOR 3);;
  Life.event (Life.WindowHint Life.CONTEXT_VERSION_MINOR 3);;
  Life.event (Life.WindowHint Life.OPENGL_PROFILE Life.OPENGL_CORE_PROFILE);;
  when (Life.apple platform) (Life.event (Life.WindowHint Life.OPENGL_FORWARD_COMPAT 1));;
  Life.event (Life.CreateWindow 800 600 "OpenGL Pyramid");;
  if negb (Life.creates_window platform) then
    Life.in_world (cerr_put ("Failed to create GLFW window" ++ endl));;
    Life.event Life.Terminate;;
    mret (Some (-1))
  else
    Life.event Life.MakeContextCurrent;;
    Life.event Life.SetFramebufferSizeCallback;;
    Life.event Life.LoadGLLoader;;
    if negb (Life.loads_gl platform) then
      Life.in_world (cerr_put ("Failed to initialize GLAD" ++ endl));;
      mret (Some (-1))
    else
      vertexShaderSource ← Life.in_world (readFile "vertex_shader.glsl");
      fragmentShaderSource ← Life.in_world (readFile "fragment_shader.glsl");
      shaderProgram ← createShaderProgram vertexShaderSource fragmentShaderSource;
      objects ← Life.in_world uploadGeometry;
      let '(VAO, VBO, EBO) := objects in
      Life.in_world (renderLoop matrix_transform.lookAt perspective radians
                                shaderProgram VAO polls);;
      closing ← gets (fun s => windowShouldClose (Life.world s));
      if (closing : bool) then
        Life.event (Life.DeleteVertexArrays VAO);;
        Life.event (Life.DeleteBuffers VBO);;
        Life.event (Life.DeleteBuffers EBO);;
        Life.event (Life.DeleteProgram shaderProgram);;
        Life.event Life.Terminate;;
        mret (Some 0)
      else mret None.

End Main.

(** A process about to enter [main]: nothing has happened yet. *)
Definition fresh_process (w : World) : Life.Process := Life.mkProcess w ∅ ∅ [].

(** The shaders of [vs] and [fs] that exist: a failed stage is the name 0. *)
Definition compiled_stages (vs fs : Z) : list Z :=
  filter (fun shader => shader <> 0) [vs; fs].

(** The calls [main] makes before it asks for the window. *)
Definition startup_events (platform : Life.Platform) : list Life.Event :=
  [ Life.Init;
    Life.WindowHint Life.CONTEXT_VERSION_MAJOR 3;
    Life.WindowHint Life.CONTEXT_VERSION_MINOR 3;
    Life.WindowHint Life.OPENGL_PROFILE Life.OPENGL_CORE_PROFILE ]
  ++ (if Life.apple platform then [Life.WindowHint Life.OPENGL_FORWARD_COMPAT 1] else [])
  ++ [ Life.CreateWindow 800 600 "OpenGL Pyramid" ].

(** What [compileShader] returns for the outcome of the driver, when the
    shader object got the name [name]. *)
Definition stage_result (outcome : GL.CompileOutcome) (name : Z) : Z :=
  match outcome with
  | GL.Compiled => name
  | GL.Failed _ => 0
  end.

(** What [compileShader] writes to [std::cerr] for the outcome. *)
Definition stage_diagnostic (type : Z) (outcome : GL.CompileOutcome) : string :=
  match outcome with
  | GL.Compiled => ""
  | GL.Failed log => compile_diagnostic type log
  end.

(** What [createShaderProgram] needs of the driver to have a defined
    result for two sources: the program and the two shader objects are
    created, under names as GL promises them (not 0, which no shader may
    have, and for the fragment shader not the name of a vertex shader that
    still exists), and no compilation fails without a log. *)
Definition serves (c : GL.Context) (vertexShader fragmentShader : string) : Prop :=
  no_shader_zero c /\
  GL.upcoming c 0 <> 0 /\ GL.upcoming c 1 <> 0 /\ GL.upcoming c 2 <> 0 /\
  (GL.glsl c GL.VERTEX_SHADER (c_str vertexShader) = GL.Compiled ->
   GL.upcoming c 1 <> GL.upcoming c 2) /\
  GL.glsl c GL.VERTEX_SHADER (c_str vertexShader) <> GL.Failed "" /\
  GL.glsl c GL.FRAGMENT_SHADER (c_str fragmentShader) <> GL.Failed "".

(** What [readFile] writes to [std::cerr] for [filePath]. *)
Definition read_diagnostic (filePath : string) (w : World) : string :=
  match files w !! filePath with
  | None => "Could not read file " ++ filePath ++ ". File does not exist." ++ nl
  | Some _ => ""
  end.

(** Whether one of the iterations leaves the close flag set. *)
Definition close_seen (polls : list Input) : bool := existsb closes polls.

(** The calls of [main] between the window and the render loop, and those
    after the loop, for the objects it created. *)
Definition setup_events (program : Z) : list Life.Event :=
  [ Life.MakeContextCurrent; Life.SetFramebufferSizeCallback; Life.LoadGLLoader;
    Life.LinkProgram program; Life.ValidateProgram program ].

Definition cleanup_events (program VAO VBO EBO : Z) : list Life.Event :=
  [ Life.DeleteVertexArrays VAO; Life.DeleteBuffers VBO; Life.DeleteBuffers EBO;
    Life.DeleteProgram program; Life.Terminate ].

(** * Properties *)

(** ** Running computations *)

Section Running.

Context {S : Type}.

Lemma run_bind {A B} (c : M S A) (f : A -> M S B) s a s1 :
  c s = Some (a, s1) -> (c ≫= f) s = f a s1.
Proof. intros Hc. unfold mbind, M_bind. by rewrite Hc. Qed.

Lemma bind_inv {A B} (c : M S A) (f : A -> M S B) s b s2 :
  (c ≫= f) s = Some (b, s2) ->
  exists a s1, c s = Some (a, s1) /\ f a s1 = Some (b, s2).
Proof.
  unfold mbind, M_bind. destruct (c s) as [[a s1]|]; [|done].
  intros Hf. by exists a, s1.
Qed.

Lemma exec_Some {A} (c : M S A) s s' :
  exec c s = Some s' <-> exists a, c s = Some (a, s').
Proof.
  unfold exec. destruct (c s) as [[a s1]|]; simpl; split.
  - intros [= <-]. by exists a.
  - by intros [a' [= _ <-]].
  - done.
  - by intros [a' ?].
Qed.

End Running.

(** GL calls, run in the world. *)

Lemma in_gl_run {A} (c : M GL.Context A) w a g :
  c (gl w) = Some (a, g) -> in_gl c w = Some (a, set_gl g w).
Proof. intros Hc. unfold in_gl. by rewrite Hc. Qed.

Lemma in_gl_gen_name w :
  in_gl GL.gen_name w
  = Some (GL.upcoming (gl w) 0,
          set_gl (GL.set_requests (S (GL.requests (gl w))) (gl w)) w).
Proof. by apply in_gl_run. Qed.

Lemma in_gl_glBindBuffer target buffer w :
  in_gl (GL.glBindBuffer target buffer) w
  = Some (tt, set_gl (GL.set_binding target buffer (gl w)) w).
Proof. by apply in_gl_run. Qed.

Lemma in_gl_glBufferData target size data usage w :
  in_gl (GL.glBufferData target size data usage) w
  = Some (tt, set_gl (GL.set_buffers
                        (insert (if target =? GL.ARRAY_BUFFER
                                 then GL.array_buffer_binding (gl w)
                                 else GL.element_array_buffer_binding (gl w))
                                match data with
                                | GL.Floats l => GL.Floats (take (Z.to_nat (size / 4)) l)
                                | GL.UInts l => GL.UInts (take (Z.to_nat (size / 4)) l)
                                end)
                        (gl w)) w).
Proof. by apply in_gl_run. Qed.

Lemma in_gl_call k w : in_gl (GL.call k) w = Some (tt, set_gl (GL.issue k (gl w)) w).
Proof. reflexivity. Qed.

Lemma in_gl_location program name w :
  in_gl (GL.glGetUniformLocation program name) w
  = Some (GL.uniform_location (gl w) program name, w).
Proof. by destruct w. Qed.

(** Calls issued one after the other. *)

Lemma issue_all_app ks ks' w : issue_all ks' (issue_all ks w) = issue_all (ks ++ ks') w.
Proof. unfold issue_all, set_gl. simpl. by rewrite app_assoc. Qed.

Lemma issue_all_nil w : issue_all [] w = w.
Proof.
  destruct w as [g closing fs err [drv loc nm n sh bf ab eb iss]].
  unfold issue_all, set_gl. simpl. by rewrite app_nil_r.
Qed.

Lemma in_gl_call_issue k w : in_gl (GL.call k) w = Some (tt, issue_all [k] w).
Proof. reflexivity. Qed.

(** [glfwPollEvents]: the viewports of the resizes are set in order, and
    a close request sets the close flag. *)
Lemma glfwPollEvents_spec input w :
  glfwPollEvents input w
  = Some (tt, mkWorld (globals w) (close_requested input || windowShouldClose w)
                      (files w) (cerr w) (gl (issue_all (viewports input) w))).
Proof.
  unfold glfwPollEvents, viewports.
  assert (forall sizes w,
            foldr (fun size rest => framebuffer_size_callback size.1 size.2;; rest)
                  (mret tt) sizes w
            = Some (tt, issue_all ((fun size => GL.Viewport 0 0 size.1 size.2) <$> sizes) w))
    as Hresizes.
  { clear. induction sizes as [|size sizes IH]; intros w.
    - by rewrite issue_all_nil.
    - cbn [foldr fmap list_fmap]. unfold framebuffer_size_callback.
      rewrite (run_bind _ _ _ _ _ (in_gl_call_issue _ _)).
      rewrite IH. by rewrite issue_all_app. }
  rewrite (run_bind _ _ _ _ _ (Hresizes _ _)).
  destruct (close_requested input); reflexivity.
Qed.

(** ** What an operation leaves alone *)

Section Keeps.

Context {T : Type} (obs : World -> T).

Lemma keeps_ret {A} (a : A) : keeps obs (mret a).
Proof. by intros w a' w' [= _ <-]. Qed.

Lemma keeps_bind {A B} (c : M World A) (f : A -> M World B) :
  keeps obs c -> (forall a, keeps obs (f a)) -> keeps obs (c ≫= f).
Proof.
  intros Hc Hf w b w2 Hrun.
  apply bind_inv in Hrun as (a & w1 & Hc1 & Hf1).
  rewrite (Hf _ _ _ _ Hf1). by apply (Hc _ _ _ Hc1).
Qed.

Lemma keeps_gets {A} (f : World -> A) : keeps obs (gets f).
Proof. by intros w a w' [= _ <-]. Qed.

Lemma keeps_defined {A} (o : option A) : keeps obs (defined o).
Proof. destruct o; [apply keeps_ret | by intros w a w']. Qed.

Lemma keeps_when (c : bool) (body : M World unit) : keeps obs body -> keeps obs (when c body).
Proof. destruct c; [done | intros _; apply keeps_ret]. Qed.

Lemma keeps_for_each from count (body : Z -> M World unit) :
  (forall i, keeps obs (body i)) -> keeps obs (for_each from count body).
Proof.
  intros Hbody. unfold for_each.
  induction (seqZ from (Z.of_nat count)) as [|i l IH]; simpl.
  - apply keeps_ret.
  - apply keeps_bind; [apply Hbody | intros _; apply IH].
Qed.

Lemma keeps_modify (f : World -> World) :
  (forall w, obs (f w) = obs w) -> keeps obs (modify f).
Proof. intros Hf w a w' [= _ <-]. apply Hf. Qed.

Lemma keeps_exec {A} (c : M World A) w w' :
  keeps obs c -> exec c w = Some w' -> obs w' = obs w.
Proof. intros Hc [a Hrun]%exec_Some. by apply (Hc _ _ _ Hrun). Qed.

End Keeps.

Create HintDb keeps discriminated.

#[local] Hint Resolve keeps_ret keeps_bind keeps_gets keeps_defined keeps_when
  keeps_for_each : keeps.

(** GL calls and diagnostics leave the globals and the window alone. *)

Lemma in_gl_keeps_globals {A} (c : M GL.Context A) : keeps globals (in_gl c).
Proof.
  intros w a w'. unfold in_gl. destruct (c (gl w)) as [[a' g]|]; [|done].
  by intros [= _ <-].
Qed.

Lemma cerr_put_keeps_globals text : keeps globals (cerr_put text).
Proof. by apply keeps_modify. Qed.

#[local] Hint Resolve in_gl_keeps_globals cerr_put_keeps_globals : keeps.

Lemma readFile_keeps_globals filePath : keeps globals (readFile filePath).
Proof.
  unfold readFile. apply keeps_bind; [auto with keeps|].
  intros [contents|]; auto with keeps.
Qed.

Lemma compileShader_keeps_globals type source : keeps globals (compileShader type source).
Proof.
  unfold compileShader.
  repeat (apply keeps_bind; [auto with keeps | intros ?]).
  case_match; auto 10 with keeps.
Qed.

Lemma uploadGeometry_keeps_globals : keeps globals uploadGeometry.
Proof. unfold uploadGeometry. auto 20 with keeps. Qed.

(** ** [processInput] against the specification *)

(** Case analysis on the four keys [processInput] asks for. *)
Ltac by_keys glfwGetKey :=
  unfold world_after, camera_after, highest_pressed, is_pressed;
  destruct (glfwGetKey GLFW.KEY_ESCAPE =? GLFW.PRESS),
           (glfwGetKey GLFW.KEY_1 =? GLFW.PRESS),
           (glfwGetKey GLFW.KEY_2 =? GLFW.PRESS),
           (glfwGetKey GLFW.KEY_3 =? GLFW.PRESS).

Lemma processInput_spec glfwGetKey w :
  processInput glfwGetKey w = Some (tt, world_after glfwGetKey w).
Proof.
  destruct w as [[center [p0 p1 p2] front up i] closing fs err ctx].
  unfold processInput, when. by_keys glfwGetKey; reflexivity.
Qed.

Lemma exec_processInput glfwGetKey w :
  exec (processInput glfwGetKey) w = Some (world_after glfwGetKey w).
Proof. unfold exec. by rewrite processInput_spec. Qed.

Lemma world_after_idempotent glfwGetKey w :
  world_after glfwGetKey (world_after glfwGetKey w) = world_after glfwGetKey w.
Proof.
  destruct w as [[center [p0 p1 p2] front up i] closing fs err ctx].
  by_keys glfwGetKey; destruct closing; reflexivity.
Qed.

Lemma camera_after_presets glfwGetKey g :
  presets_intact g -> presets_intact (camera_after glfwGetKey g).
Proof. by intros [Hcenter Hpresets]. Qed.

Lemma camera_after_aimed glfwGetKey g : aimed g -> aimed (camera_after glfwGetKey g).
Proof.
  destruct g as [center [p0 p1 p2] front up i].
  intros (position & Hposition & Hfront). simpl in *.
  by_keys glfwGetKey; simpl; try (eexists; split; reflexivity).
  all: by exists position.
Qed.

Lemma camera_after_index glfwGetKey g :
  0 <= currentCameraPosition g <= 2 ->
  0 <= currentCameraPosition (camera_after glfwGetKey g) <= 2.
Proof. intros Hi. by_keys glfwGetKey; simpl; lia. Qed.

Lemma subscript_in_range {A} (a : array3 A) i :
  0 <= i <= 2 -> exists v, subscript a i = Some v.
Proof.
  intros Hi.
  assert (i = 0 \/ i = 1 \/ i = 2) as [-> | [-> | ->]] by lia; simpl; eauto.
Qed.

(** The initial forward vector is the normalised direction to the center. *)
Lemma initial_globals_aimed : aimed initial_globals.
Proof. exists (glm.vec3i 0 0 10). split; [reflexivity | by vm_compute]. Qed.

Lemma restrict_spec glfwGetKey keys key :
  is_pressed (restrict glfwGetKey keys) key
  = bool_decide (key ∈ keys) && is_pressed glfwGetKey key.
Proof.
  unfold is_pressed, restrict.
  destruct (decide (key ∈ keys)) as [Hin|Hout].
  - by rewrite bool_decide_eq_true_2.
  - by rewrite bool_decide_eq_false_2.
Qed.

(** Closed membership tests between key codes are evaluated. *)
Ltac decide_keys :=
  repeat match goal with
         | |- context [bool_decide (?key ∈ ?keys)] =>
             let b := eval vm_compute in (bool_decide (key ∈ keys)) in
             change (bool_decide (key ∈ keys)) with b
         end.

(** The branches for Escape and key 1, for key 2 and for key 3, one after
    the other, are the whole call. *)
Lemma world_after_in_order glfwGetKey w :
  world_after (restrict glfwGetKey [GLFW.KEY_3])
    (world_after (restrict glfwGetKey [GLFW.KEY_2])
       (world_after (restrict glfwGetKey [GLFW.KEY_ESCAPE; GLFW.KEY_1]) w))
  = world_after glfwGetKey w.
Proof.
  destruct w as [[center [p0 p1 p2] front up i] closing fs err ctx].
  unfold world_after, camera_after, highest_pressed.
  rewrite !restrict_spec. decide_keys.
  destruct (is_pressed glfwGetKey GLFW.KEY_ESCAPE), (is_pressed glfwGetKey GLFW.KEY_1),
    (is_pressed glfwGetKey GLFW.KEY_2), (is_pressed glfwGetKey GLFW.KEY_3); reflexivity.
Qed.

(** ** The render loop *)
Section Frames.

Variable lookAt : glm.vec3 -> glm.vec3 -> glm.vec3 -> glm.mat4.
Variable perspective : f32.t -> f32.t -> f32.t -> f32.t -> glm.mat4.
Variable radians : f32.t -> f32.t.
Variables shaderProgram VAO : Z.

Lemma drawPyramid_spec i w :
  drawPyramid shaderProgram VAO i w
  = Some (tt, set_gl (GL.issue (GL.DrawElements GL.TRIANGLES 18 GL.UNSIGNED_INT 0)
                       (GL.issue (GL.BindVertexArray VAO)
                         (GL.issue (GL.UniformMatrix4fv
                                      (GL.uniform_location (gl w) shaderProgram "model")
                                      (model i))
                                   (gl w)))) w).
Proof.
  unfold drawPyramid.
  rewrite (run_bind _ _ _ _ _ (in_gl_location _ _ _)).
  rewrite (run_bind _ _ _ _ _ (in_gl_call _ _)).
  rewrite (run_bind _ _ _ _ _ (in_gl_call _ _)).
  rewrite in_gl_call. by destruct w.
Qed.

(** A frame runs whenever the camera index is in range; it performs the
    camera selection, adds its calls to those issued and touches nothing
    else. *)
Lemma frame_spec glfwGetKey w :
  0 <= currentCameraPosition (globals w) <= 2 ->
  exists w' eye,
    frame lookAt perspective radians shaderProgram VAO glfwGetKey w = Some (tt, w') /\
    camera_position (world_after glfwGetKey w) = Some eye /\
    globals w' = camera_after glfwGetKey (globals w) /\
    GL.buffers (gl w') = GL.buffers (gl w) /\
    GL.issued (gl w') =
      GL.issued (gl w) ++
      frame_calls lookAt perspective radians shaderProgram VAO
                  (GL.uniform_location (gl w)) (globals w') eye.
Proof.
  intros Hi.
  unfold frame.
  rewrite (run_bind _ _ _ _ _ (processInput_spec glfwGetKey w)).
  assert (globals (world_after glfwGetKey w) = camera_after glfwGetKey (globals w)) as Hg
    by reflexivity.
  assert (gl (world_after glfwGetKey w) = gl w) as Hgl by reflexivity.
  destruct (subscript_in_range (cameraPositions (globals (world_after glfwGetKey w)))
              (currentCameraPosition (globals (world_after glfwGetKey w))))
    as [eye Heye]; [rewrite Hg; by apply camera_after_index|].
  unfold camera_position. rewrite <- Hg, <- Hgl. clear Hg Hgl Hi.
  generalize dependent (world_after glfwGetKey w). clear w. intros w Heye.
  do 3 rewrite (run_bind _ _ _ _ _ (in_gl_call _ _)).
  unfold gets at 1. unfold mbind at 1, M_bind at 1.
  cbn [globals set_gl]. rewrite Heye.
  unfold defined. unfold mbind at 1, M_bind at 1, mret at 1, M_ret at 1.
  rewrite (run_bind _ _ _ _ _ (in_gl_location _ _ _)).
  rewrite (run_bind _ _ _ _ _ (in_gl_call _ _)).
  rewrite (run_bind _ _ _ _ _ (in_gl_location _ _ _)).
  rewrite (run_bind _ _ _ _ _ (in_gl_call _ _)).
  unfold for_each. change (seqZ 0 (Z.of_nat 3)) with [0; 1; 2].
  unfold foldr.
  do 3 rewrite (run_bind _ _ _ _ _ (drawPyramid_spec _ _)).
  eexists _, eye. split; [reflexivity|]. split; [done|].
  destruct w as [g closing fs err [drv loc nm n sh bf ab eb iss]].
  cbn [globals set_gl gl GL.issue GL.buffers GL.issued GL.uniform_location].
  split; [done|]. split; [done|]. rewrite <- !app_assoc. reflexivity.
Qed.

Lemma renderLoop_spec polls : forall w,
  0 <= currentCameraPosition (globals w) <= 2 ->
  exists w',
    renderLoop lookAt perspective radians shaderProgram VAO polls w = Some (tt, w') /\
    0 <= currentCameraPosition (globals w') <= 2 /\
    GL.buffers (gl w') = GL.buffers (gl w).
Proof.
  induction polls as [|input later IH]; intros w Hi; simpl.
  - by exists w.
  - unfold gets. unfold mbind at 1, M_bind at 1.
    destruct (windowShouldClose w); [by exists w|].
    destruct (frame_spec (keys input) w Hi) as (w1 & eye & Hframe & _ & Hg & Hbuf & _).
    assert (iteration lookAt perspective radians shaderProgram VAO input w
            = Some (tt, mkWorld (globals w1) (close_requested input || windowShouldClose w1)
                                (files w1) (cerr w1) (gl (issue_all (viewports input) w1))))
      as Hiteration.
    { unfold iteration. rewrite (run_bind _ _ _ _ _ Hframe).
      unfold glfwSwapBuffers. unfold mret at 1, M_ret at 1. unfold mbind at 1, M_bind at 1.
      apply glfwPollEvents_spec. }
    rewrite (run_bind _ _ _ _ _ Hiteration).
    match goal with |- context [renderLoop _ _ _ _ _ later ?polled] => set (w2 := polled) end.
    destruct (IH w2) as (w' & Hloop & Hi' & Hbuf').
    { change (globals w2) with (globals w1). rewrite Hg. by apply camera_after_index. }
    exists w'. repeat split; [done | lia | lia |].
    rewrite Hbuf'. change (GL.buffers (gl w2)) with (GL.buffers (gl w1)). exact Hbuf.
Qed.

End Frames.


Lemma frame_globals lookAt perspective radians shaderProgram VAO glfwGetKey w w' :
  exec (frame lookAt perspective radians shaderProgram VAO glfwGetKey) w = Some w' ->
  globals w' = camera_after glfwGetKey (globals w).
Proof.
  intros [[] Hrun]%exec_Some. unfold frame in Hrun.
  rewrite (run_bind _ _ _ _ _ (processInput_spec glfwGetKey w)) in Hrun.
  assert (keeps globals
    (in_gl (GL.call (GL.ClearColor (f32.lit 2 1) (f32.lit 3 1) (f32.lit 3 1) (f32.of_int 1)));;
     in_gl (GL.call (GL.Clear GL.COLOR_BUFFER_BIT));;
     in_gl (GL.call (GL.UseProgram shaderProgram));;
     g ← gets globals;
     eye ← defined (subscript (cameraPositions g) (currentCameraPosition g));
     viewLoc ← in_gl (GL.glGetUniformLocation shaderProgram "view");
     in_gl (GL.call (GL.UniformMatrix4fv viewLoc
                       (lookAt eye (glm.add eye (cameraFront g)) (cameraUp g))));;
     projLoc ← in_gl (GL.glGetUniformLocation shaderProgram "projection");
     in_gl (GL.call (GL.UniformMatrix4fv projLoc
                       (perspective (radians (f32.of_int 45))
                          (f32.div (f32.of_int 800) (f32.of_int 600))
                          (f32.lit 1 1) (f32.of_int 100))));;
     for_each 0 3 (drawPyramid shaderProgram VAO))) as Hrest.
  { unfold drawPyramid. auto 20 with keeps. }
  apply Hrest in Hrun. by rewrite Hrun.
Qed.

(** ** The invariant of the reachable worlds *)

Lemma reachable_invariant w :
  reachable w ->
  presets_intact (globals w) /\ aimed (globals w) /\
  0 <= currentCameraPosition (globals w) <= 2.
Proof.
  assert (forall glfwGetKey g,
    presets_intact g /\ aimed g /\ 0 <= currentCameraPosition g <= 2 ->
    presets_intact (camera_after glfwGetKey g) /\ aimed (camera_after glfwGetKey g) /\
    0 <= currentCameraPosition (camera_after glfwGetKey g) <= 2) as Hstep.
  { intros glfwGetKey g (? & ? & ?).
    auto using camera_after_presets, camera_after_aimed, camera_after_index. }
  induction 1 as [w [Hg _]
                 | w glfwGetKey w' _ IH Hrun
                 | w filePath w' _ IH Hrun
                 | w type source w' _ IH Hrun
                 | w w' _ IH Hrun
                 | w lookAt perspective radians shaderProgram VAO glfwGetKey w' _ IH Hrun
                 | w input w' _ IH Hrun].
  - rewrite Hg. split; [done|]. split; [apply initial_globals_aimed | done].
  - rewrite exec_processInput in Hrun. injection Hrun as <-. by apply Hstep.
  - by rewrite (keeps_exec _ _ _ _ (readFile_keeps_globals filePath) Hrun).
  - by rewrite (keeps_exec _ _ _ _ (compileShader_keeps_globals type source) Hrun).
  - by rewrite (keeps_exec _ _ _ _ uploadGeometry_keeps_globals Hrun).
  - rewrite (frame_globals _ _ _ _ _ _ _ _ Hrun). by apply Hstep.
  - unfold exec in Hrun. rewrite glfwPollEvents_spec in Hrun. by injection Hrun as <-.
Qed.

Lemma example_world_reachable : reachable example_world.
Proof. by apply reachable_start. Qed.

(** ** Camera selection *)

(** C1, as amended: for every selection key [i] of 1, 2, 3, a [processInput]
    call in which key [i] is down and no higher-numbered selection key is
    down sets the camera position to [cameraPositions[i-1]] and the forward
    vector to [normalize(sceneCenter - cameraPositions[i-1])]; in a reachable
    world key 2 gives the position (0,10,0) and the forward vector
    (0,-1,0). *)
Theorem C1_selected_view (i : Z) (glfwGetKey : Z -> Z) (w : World) :
  1 <= i <= 3 ->
  is_pressed glfwGetKey (selection_key i) = true ->
  (forall j, i < j <= 3 -> is_pressed glfwGetKey (selection_key j) = false) ->
  exists w' position,
    exec (processInput glfwGetKey) w = Some w' /\
    subscript (cameraPositions (globals w')) (i - 1) = Some position /\
    camera_position w' = Some position /\
    cameraFront (globals w') = glm.normalize (glm.sub (sceneCenter (globals w')) position) /\
    (i = 2 -> reachable w ->
     position = glm.vec3i 0 10 0 /\ cameraFront (globals w') = glm.vec3i 0 (-1) 0).
Proof.
  intros Hi Hdown Hhigher.
  exists (world_after glfwGetKey w). rewrite exec_processInput.
  assert (highest_pressed glfwGetKey = Some i) as Hhighest.
  { pose proof (Hhigher 2) as Hkey2. pose proof (Hhigher 3) as Hkey3.
    change (selection_key 2) with GLFW.KEY_2 in Hkey2.
    change (selection_key 3) with GLFW.KEY_3 in Hkey3.
    unfold highest_pressed.
    assert (i = 1 \/ i = 2 \/ i = 3) as [-> | [-> | ->]] by lia.
    - change (selection_key 1) with GLFW.KEY_1 in Hdown.
      rewrite Hkey3, Hkey2 by lia. by rewrite Hdown.
    - change (selection_key 2) with GLFW.KEY_2 in Hdown.
      rewrite Hkey3 by lia. by rewrite Hdown.
    - change (selection_key 3) with GLFW.KEY_3 in Hdown. by rewrite Hdown. }
  destruct (subscript_in_range (cameraPositions (globals w)) (i - 1)) as [position Hposition];
    [lia|].
  exists position. unfold camera_position, world_after, camera_after.
  rewrite Hhighest. simpl. rewrite Hposition.
  do 4 (split; [done|]).
  intros -> Hreach. simpl in Hposition.
  destruct (reachable_invariant w Hreach) as ((Hcenter & Hpresets) & _).
  rewrite Hpresets in Hposition. injection Hposition as <-.
  split; [done|]. rewrite Hcenter. by vm_compute.
Qed.

Lemma C1_selected_view_witness :
  exists w' position,
    exec (processInput (only 2)) example_world = Some w' /\
    subscript (cameraPositions (globals w')) (2 - 1) = Some position /\
    camera_position w' = Some position /\
    cameraFront (globals w') = glm.normalize (glm.sub (sceneCenter (globals w')) position) /\
    (2 = 2 -> reachable example_world ->
     position = glm.vec3i 0 10 0 /\ cameraFront (globals w') = glm.vec3i 0 (-1) 0).
Proof.
  apply (C1_selected_view 2 (only 2) example_world).
  - lia.
  - reflexivity.
  - intros j Hj. assert (j = 3) as -> by lia. reflexivity.
Defined.

(** C1 without the condition on the higher keys fails: with keys 1 and 2
    both down, key 1 is pressed, yet the camera ends at [cameraPositions[1]]
    and looks down, not at [cameraPositions[0]]. *)
Lemma C1_key_1_with_key_2 :
  is_pressed (pressed [GLFW.KEY_1; GLFW.KEY_2]) (selection_key 1) = true /\
  exists w',
    exec (processInput (pressed [GLFW.KEY_1; GLFW.KEY_2])) example_world = Some w' /\
    subscript (cameraPositions (globals w')) (1 - 1) = Some (glm.vec3i 0 0 10) /\
    camera_position w' = Some (glm.vec3i 0 10 0) /\
    camera_position w' <> subscript (cameraPositions (globals w')) (1 - 1) /\
    cameraFront (globals w') = glm.vec3i 0 (-1) 0 /\
    cameraFront (globals w')
      <> glm.normalize (glm.sub (sceneCenter (globals w')) (glm.vec3i 0 0 10)).
Proof.
  split; [reflexivity|].
  eexists. split; [by vm_compute|].
  repeat split; by vm_compute.
Qed.

(** C2: a call with key 2 down sets the up vector to (0,0,-1); a call
    without key 2 down, so one with only key 1 or only key 3 down, leaves
    the up vector as it was, whatever it was. *)
Theorem C2_up_vector (glfwGetKey : Z -> Z) (w : World) :
  (exists w',
     exec (processInput glfwGetKey) w = Some w' /\
     cameraUp (globals w') =
       if is_pressed glfwGetKey GLFW.KEY_2 then glm.vec3i 0 0 (-1)
       else cameraUp (globals w)) /\
  (exists w2,
     exec (processInput (only 2)) w = Some w2 /\ cameraUp (globals w2) = glm.vec3i 0 0 (-1)) /\
  (exists w1,
     exec (processInput (only 1)) w = Some w1 /\ cameraUp (globals w1) = cameraUp (globals w)) /\
  (exists w3,
     exec (processInput (only 3)) w = Some w3 /\ cameraUp (globals w3) = cameraUp (globals w)).
Proof.
  repeat split; eexists; (split; [apply exec_processInput | reflexivity]).
Qed.

(** C3: in every reachable world the forward vector is
    [normalize(sceneCenter - cameraPositions[currentCameraPosition])], and
    [sceneCenter] is the origin. *)
Theorem C3_forward_aims_at_center (w : World) :
  reachable w ->
  exists position,
    camera_position w = Some position /\
    sceneCenter (globals w) = glm.vec3i 0 0 0 /\
    cameraFront (globals w) = glm.normalize (glm.sub (sceneCenter (globals w)) position).
Proof.
  intros Hreach.
  destruct (reachable_invariant w Hreach) as ((Hcenter & _) & (position & Hposition & Hfront) & _).
  by exists position.
Qed.

Lemma C3_forward_aims_at_center_witness :
  exists position,
    camera_position (world_after (only 3) example_world) = Some position /\
    sceneCenter (globals (world_after (only 3) example_world)) = glm.vec3i 0 0 0 /\
    cameraFront (globals (world_after (only 3) example_world)) =
      glm.normalize (glm.sub (sceneCenter (globals (world_after (only 3) example_world)))
                             position).
Proof.
  apply (C3_forward_aims_at_center (world_after (only 3) example_world)).
  apply (reachable_processInput example_world (only 3)).
  - apply example_world_reachable.
  - apply exec_processInput.
Defined.

(** C8: for each of the keys 1, 2, 3 and every world, the selection run a
    second time gives the world the first run gave: position index, forward
    and up vector included. *)
Theorem C8_selection_idempotent (w : World) :
  Forall (fun i =>
            exists w1,
              exec (processInput (only i)) w = Some w1 /\
              exec (processInput (only i)) w1 = Some w1 /\
              currentCameraPosition (globals w1) = i - 1)
         [1; 2; 3].
Proof.
  repeat constructor; eexists; rewrite !exec_processInput;
    (split; [reflexivity|]); (split; [by rewrite world_after_idempotent | reflexivity]).
Qed.

(** C9: with several selection keys down the branches run in the order 1,
    2, 3: the call is the call for Escape and key 1, then the one for key 2,
    then the one for key 3.  The highest-numbered key that is down gives
    the position index and the forward vector, the up vector becomes
    (0,0,-1) whenever key 2 is down; keys 2 and 3 together give the side
    position with the up vector (0,0,-1). *)
Theorem C9_highest_key_wins (glfwGetKey : Z -> Z) (w : World) :
  exists w',
    exec (processInput glfwGetKey) w = Some w' /\
    (w1 ← exec (processInput (restrict glfwGetKey [GLFW.KEY_ESCAPE; GLFW.KEY_1])) w;
     w2 ← exec (processInput (restrict glfwGetKey [GLFW.KEY_2])) w1;
     exec (processInput (restrict glfwGetKey [GLFW.KEY_3])) w2) = Some w' /\
    (forall i, highest_pressed glfwGetKey = Some i ->
       1 <= i <= 3 /\ is_pressed glfwGetKey (selection_key i) = true /\
       currentCameraPosition (globals w') = i - 1 /\
       exists position,
         subscript (cameraPositions (globals w)) (i - 1) = Some position /\
         cameraFront (globals w') =
           glm.normalize (glm.sub (sceneCenter (globals w)) position)) /\
    (highest_pressed glfwGetKey = None ->
       currentCameraPosition (globals w') = currentCameraPosition (globals w) /\
       cameraFront (globals w') = cameraFront (globals w)) /\
    cameraUp (globals w') =
      (if is_pressed glfwGetKey GLFW.KEY_2 then glm.vec3i 0 0 (-1) else cameraUp (globals w)) /\
    exists w23,
      exec (processInput (pressed [GLFW.KEY_2; GLFW.KEY_3])) w = Some w23 /\
      currentCameraPosition (globals w23) = 2 /\
      camera_position w23 = Some (elt2 (cameraPositions (globals w))) /\
      cameraFront (globals w23) =
        glm.normalize (glm.sub (sceneCenter (globals w)) (elt2 (cameraPositions (globals w)))) /\
      cameraUp (globals w23) = glm.vec3i 0 0 (-1).
Proof.
  exists (world_after glfwGetKey w). rewrite !exec_processInput.
  split; [done|]. split.
  { simpl. rewrite exec_processInput. simpl. rewrite exec_processInput.
    by rewrite world_after_in_order. }
  split; [|split; [|split]].
  - intros i Hi. unfold world_after, camera_after. rewrite Hi.
    destruct w as [[center [p0 p1 p2] front up index] closing fs err ctx].
    revert Hi. unfold highest_pressed.
    destruct (is_pressed glfwGetKey GLFW.KEY_3) eqn:Hkey3;
      [|destruct (is_pressed glfwGetKey GLFW.KEY_2) eqn:Hkey2;
        [|destruct (is_pressed glfwGetKey GLFW.KEY_1) eqn:Hkey1]];
      intros [= <-]; (split; [lia|]); (split; [done|]); (split; [done|]);
      eexists; split; reflexivity.
  - intros Hnone. unfold world_after, camera_after. by rewrite Hnone.
  - reflexivity.
  - eexists. split; [done|]. repeat split.
Qed.

(** C10: in every reachable world [currentCameraPosition] is 0, 1 or 2, and
    [cameraPositions] and [sceneCenter] hold their initial values: no
    operation of the program changes them. *)
Theorem C10_presets_never_change (w : World) :
  reachable w ->
  0 <= currentCameraPosition (globals w) <= 2 /\
  cameraPositions (globals w) = initial_cameraPositions /\
  sceneCenter (globals w) = initial_sceneCenter.
Proof.
  intros Hreach.
  destruct (reachable_invariant w Hreach) as ((Hcenter & Hpresets) & _ & Hindex).
  done.
Qed.

Lemma C10_presets_never_change_witness :
  0 <= currentCameraPosition (globals (world_after (pressed [GLFW.KEY_2; GLFW.KEY_1])
                                          example_world)) <= 2 /\
  cameraPositions (globals (world_after (pressed [GLFW.KEY_2; GLFW.KEY_1]) example_world))
    = initial_cameraPositions /\
  sceneCenter (globals (world_after (pressed [GLFW.KEY_2; GLFW.KEY_1]) example_world))
    = initial_sceneCenter.
Proof.
  apply (C10_presets_never_change
           (world_after (pressed [GLFW.KEY_2; GLFW.KEY_1]) example_world)).
  apply (reachable_processInput example_world (pressed [GLFW.KEY_2; GLFW.KEY_1])).
  - apply example_world_reachable.
  - apply exec_processInput.
Defined.

(** ** Shader loading *)

(** C4: [readFile] on a path that cannot be opened returns the empty string
    and writes a diagnostic to [std::cerr]; it returns normally.  On a file
    that can be opened it returns the whole contents and changes nothing. *)
Theorem C4_readFile (filePath : string) (w : World) :
  match files w !! filePath with
  | None =>
      readFile filePath w
      = Some ("", mkWorld (globals w) (windowShouldClose w) (files w)
                          (cerr w ++ "Could not read file " ++ filePath
                                  ++ ". File does not exist." ++ nl)
                          (gl w))
  | Some contents => readFile filePath w = Some (contents, w)
  end.
Proof.
  assert (gets (fun w => files w !! filePath) w = Some (files w !! filePath, w)) as Hopen
    by reflexivity.
  unfold readFile.
  destruct (files w !! filePath) as [contents|];
    rewrite (run_bind _ _ _ _ _ Hopen); reflexivity.
Qed.

Lemma substring_whole (s : string) : String.substring 0 (String.length s) s = s.
Proof. induction s as [|a s IH]; simpl; [reflexivity | by rewrite IH]. Qed.

(** [compileShader] for a shader stage whose object the driver creates:
    the driver compiles the C string of [source]. *)
Lemma compileShader_created type source w :
  GL.is_shader_type type = true ->
  GL.upcoming (gl w) 0 <> 0 ->
  compileShader type source w
  = match GL.glsl (gl w) type (c_str source) with
    | GL.Compiled => Some (GL.upcoming (gl w) 0, world_compiled type source w)
    | GL.Failed log =>
        if decide (log = "") then None else Some (0, world_rejected type log w)
    end.
Proof.
  intros Htype Hcreated.
  destruct w as [g closing fs err [drv loc nm n sh bf ab eb iss]].
  unfold GL.upcoming in *. cbn in Hcreated.
  unfold world_compiled, world_rejected, compile_diagnostic, stage_name, GL.upcoming.
  unfold compileShader, in_gl, GL.glCreateShader, GL.glShaderSource, GL.glCompileShader,
    GL.glGetShaderiv, GL.glGetShaderInfoLog, GL.glDeleteShader, GL.gen_name, cerr_put,
    defined, undefined, modify, get, mbind, M_bind, mret, M_ret, set_gl, GL.set_shaders,
    GL.set_requests.
  rewrite Htype. cbn. rewrite decide_False by done. cbn.
  rewrite !lookup_alter_eq, lookup_insert_eq. cbn.
  destruct (drv type (c_str source)) as [|log] eqn:Hdriver; cbn.
  - do 4 f_equal. apply map_eq. intros j. destruct (decide (j = nm n)) as [->|Hj].
    + rewrite !lookup_alter_eq, !lookup_insert_eq. cbn. by rewrite Hdriver.
    + by rewrite !lookup_alter_ne, !lookup_insert_ne.
  - rewrite !lookup_alter_eq, lookup_insert_eq. cbn. rewrite Hdriver.
    unfold GL.info_log_length. destruct (decide (log = "")) as [->|Hlog]; cbn.
    + by rewrite !lookup_alter_eq, lookup_insert_eq.
    + rewrite !lookup_alter_eq, lookup_insert_eq. cbn. rewrite Hdriver.
      replace (Z.to_nat (Z.of_nat (String.length log) + 1 - 1)) with (String.length log)
        by lia.
      rewrite substring_whole.
      destruct (Z.of_nat (String.length log) + 1 <=? 0) eqn:Hlen;
        [apply Z.leb_le in Hlen; lia|].
      cbn. by rewrite !delete_alter_eq, delete_insert_eq.
Qed.

(** Without a shader object the status is read unwritten. *)
Lemma compileShader_not_created type source w :
  GL.is_shader_type type = false \/ GL.upcoming (gl w) 0 = 0 ->
  no_shader_zero (gl w) ->
  compileShader type source w = None.
Proof.
  intros Hnone Hzero.
  destruct w as [g closing fs err [drv loc nm n sh bf ab eb iss]].
  unfold no_shader_zero, GL.upcoming in *. cbn in Hzero, Hnone.
  unfold compileShader, in_gl, GL.glCreateShader, GL.glShaderSource, GL.glCompileShader,
    GL.glGetShaderiv, GL.gen_name, defined, undefined, modify, get, mbind, M_bind, mret,
    M_ret, set_gl, GL.set_shaders, GL.set_requests.
  destruct (GL.is_shader_type type).
  - destruct Hnone as [|Hnone]; [done|]. cbn. rewrite decide_True by done. cbn.
    by rewrite !lookup_alter_eq, Hzero.
  - cbn. by rewrite !lookup_alter_eq, Hzero.
Qed.

(** Without a log the diagnostic is not defined: no buffer is allocated
    and nothing is written for [operator<<] to read. *)
Lemma compileShader_without_log type source w :
  GL.is_shader_type type = true ->
  GL.upcoming (gl w) 0 <> 0 ->
  GL.glsl (gl w) type (c_str source) = GL.Failed "" ->
  compileShader type source w = None.
Proof.
  intros Htype Hcreated Hdriver.
  rewrite compileShader_created by done. by rewrite Hdriver.
Qed.

(** C5: where the driver reports a failed compilation and has no
    information log for it, [compileShader] does not return 0 with a
    diagnostic: [GL_INFO_LOG_LENGTH] is 0, nothing is allocated and
    nothing written, and the [message] that is printed is unwritten
    storage.  Here for a vertex shader on a driver that fails every
    source without a log. *)
Theorem C5_compileShader_without_log :
  GL.glsl (gl silent_world) GL.VERTEX_SHADER (c_str "void main() {}") = GL.Failed "" /\
  GL.info_log_length "" = 0 /\
  compileShader GL.VERTEX_SHADER "void main() {}" silent_world = None.
Proof.
  split; [reflexivity|]. split; [reflexivity|].
  by apply compileShader_without_log.
Qed.

(** ** Geometry *)

Lemma take_sizeof {A} (l : list A) : take (Z.to_nat (sizeof l / 4)) l = l.
Proof.
  unfold sizeof. rewrite Z.mul_comm, Z.div_mul by done.
  rewrite Nat2Z.id. apply firstn_all.
Qed.

(** The upload asks for three names and ends with both arrays in the data
    stores of the two buffers; the globals are untouched. *)
Lemma uploadGeometry_spec w :
  let VAO := GL.upcoming (gl w) 0 in
  let VBO := GL.upcoming (gl w) 1 in
  let EBO := GL.upcoming (gl w) 2 in
  exists w',
    uploadGeometry w = Some ((VAO, VBO, EBO), w') /\
    globals w' = globals w /\
    GL.buffers (gl w')
    = <[EBO := GL.UInts indices]> (<[VBO := GL.Floats vertices]> (GL.buffers (gl w))).
Proof.
  destruct w as [g closing fs err [drv loc nm n sh bf ab eb iss]].
  unfold uploadGeometry, GL.glGenVertexArrays, GL.glGenBuffers.
  do 3 (rewrite (run_bind _ _ _ _ _ (in_gl_gen_name _));
        cbn [gl set_gl GL.requests GL.set_requests]).
  rewrite (run_bind _ _ _ _ _ (in_gl_call _ _)).
  rewrite (run_bind _ _ _ _ _ (in_gl_glBindBuffer _ _ _)).
  rewrite (run_bind _ _ _ _ _ (in_gl_glBufferData _ _ _ _ _)).
  rewrite (run_bind _ _ _ _ _ (in_gl_glBindBuffer _ _ _)).
  rewrite (run_bind _ _ _ _ _ (in_gl_glBufferData _ _ _ _ _)).
  do 4 rewrite (run_bind _ _ _ _ _ (in_gl_call _ _)).
  eexists. split; [reflexivity|]. split; [reflexivity|].
  unfold GL.upcoming.
  cbn [gl set_gl GL.buffers GL.set_buffers GL.issue GL.set_binding GL.set_requests
       GL.names GL.requests GL.array_buffer_binding GL.element_array_buffer_binding
       Nat.add].
  change (GL.ARRAY_BUFFER =? GL.ARRAY_BUFFER) with true.
  change (GL.ELEMENT_ARRAY_BUFFER =? GL.ARRAY_BUFFER) with false.
  change (GL.ELEMENT_ARRAY_BUFFER =? GL.ELEMENT_ARRAY_BUFFER) with true.
  cbv iota. by rewrite !take_sizeof.
Qed.

(** C6: the index array has exactly 18 entries, each between 0 and 4 and
    thereby an index of one of the 5 vertices, and they form 6 triangles.
    It is uploaded once, whole; after any number of iterations of the
    render loop the element buffer still holds exactly these indices. *)
Theorem C6_index_buffer
    (lookAt : glm.vec3 -> glm.vec3 -> glm.vec3 -> glm.mat4)
    (perspective : f32.t -> f32.t -> f32.t -> f32.t -> glm.mat4)
    (radians : f32.t -> f32.t) (shaderProgram : Z) (polls : list Input) (w : World) :
  reachable w ->
  length indices = 18%nat /\
  Forall (fun i => 0 <= i <= 4) indices /\
  vertex_count = 5 /\
  Forall (fun i => 0 <= i < vertex_count) indices /\
  length (triangles indices) = 6%nat /\
  exists VAO VBO EBO w1 w2,
    uploadGeometry w = Some ((VAO, VBO, EBO), w1) /\
    GL.buffers (gl w1) !! EBO = Some (GL.UInts indices) /\
    renderLoop lookAt perspective radians shaderProgram VAO polls w1 = Some (tt, w2) /\
    GL.buffers (gl w2) !! EBO = Some (GL.UInts indices).
Proof.
  intros Hreach.
  split; [reflexivity|].
  split; [repeat constructor; lia|].
  split; [reflexivity|].
  split; [by repeat constructor|].
  split; [reflexivity|].
  destruct (uploadGeometry_spec w) as (w1 & Hupload & Hglobals & Hbuffers).
  destruct (reachable_invariant w Hreach) as (_ & _ & Hindex).
  rewrite <- Hglobals in Hindex.
  destruct (renderLoop_spec lookAt perspective radians shaderProgram
              (GL.upcoming (gl w) 0) polls w1 Hindex) as (w2 & Hloop & _ & Hkept).
  eexists _, _, _, w1, w2. split; [exact Hupload|].
  split; [by rewrite Hbuffers, lookup_insert_eq|].
  split; [exact Hloop|].
  by rewrite Hkept, Hbuffers, lookup_insert_eq.
Qed.

Lemma C6_index_buffer_witness :
  length indices = 18%nat /\
  Forall (fun i => 0 <= i <= 4) indices /\
  vertex_count = 5 /\
  Forall (fun i => 0 <= i < vertex_count) indices /\
  length (triangles indices) = 6%nat /\
  exists VAO VBO EBO w1 w2,
    uploadGeometry example_world = Some ((VAO, VBO, EBO), w1) /\
    GL.buffers (gl w1) !! EBO = Some (GL.UInts indices) /\
    renderLoop (fun _ _ _ => glm.mat4_1) (fun _ _ _ _ => glm.mat4_1) (fun r => r) 0 VAO
               [just_keys (only 2); mkInput (pressed []) [(640%Z, 480%Z)] false;
                just_keys (only 3)] w1 = Some (tt, w2) /\
    GL.buffers (gl w2) !! EBO = Some (GL.UInts indices).
Proof.
  apply (C6_index_buffer (fun _ _ _ => glm.mat4_1) (fun _ _ _ _ => glm.mat4_1) (fun r => r) 0
                         [just_keys (only 2); mkInput (pressed []) [(640%Z, 480%Z)] false;
                          just_keys (only 3)] example_world).
  apply example_world_reachable.
Defined.

(** C7: for each instance [i] of 0, 1, 2 the model matrix is the identity
    moved by [(2 i - 2, 0, 0)], which puts the instances at (-2,0,0),
    (0,0,0) and (2,0,0); every frame hands exactly these three matrices to
    the driver, each followed by the draw of the 18 indices. *)
Theorem C7_model_matrices
    (lookAt : glm.vec3 -> glm.vec3 -> glm.vec3 -> glm.mat4)
    (perspective : f32.t -> f32.t -> f32.t -> f32.t -> glm.mat4)
    (radians : f32.t -> f32.t) (shaderProgram VAO : Z) (glfwGetKey : Z -> Z) (w : World) :
  reachable w ->
  Forall (fun i =>
            model i = glm.translate glm.mat4_1 (glm.vec3i (i * 2 - 2) 0 0) /\
            model i = translation_x (i * 2 - 2) /\
            glm.xyz (glm.mulv (model i) (glm.vec4i 0 0 0 1)) = glm.vec3i (i * 2 - 2) 0 0)
         [0; 1; 2] /\
  (fun i => glm.xyz (glm.mulv (model i) (glm.vec4i 0 0 0 1))) <$> [0; 1; 2]
  = [glm.vec3i (-2) 0 0; glm.vec3i 0 0 0; glm.vec3i 2 0 0] /\
  exists w' before,
    frame lookAt perspective radians shaderProgram VAO glfwGetKey w = Some (tt, w') /\
    length before = 5%nat /\
    GL.issued (gl w')
    = GL.issued (gl w) ++ before
      ++ flat_map (fun tx => pyramid_calls (GL.uniform_location (gl w) shaderProgram "model")
                                           VAO (translation_x tx))
                  [-2; 0; 2].
Proof.
  intros Hreach.
  assert (model 0 = translation_x (-2)) as Hleft by by vm_compute.
  assert (model 1 = translation_x 0) as Hmiddle by by vm_compute.
  assert (model 2 = translation_x 2) as Hright by by vm_compute.
  split; [repeat constructor; by vm_compute|].
  split; [by vm_compute|].
  destruct (reachable_invariant w Hreach) as (_ & _ & Hindex).
  destruct (frame_spec lookAt perspective radians shaderProgram VAO glfwGetKey w Hindex)
    as (w' & eye & Hframe & _ & _ & _ & Hissued).
  exists w'. eexists. split; [exact Hframe|].
  rewrite Hissued. unfold frame_calls.
  cbn [flat_map]. rewrite Hleft, Hmiddle, Hright.
  split; [|reflexivity]. reflexivity.
Qed.

Lemma C7_model_matrices_witness :
  Forall (fun i =>
            model i = glm.translate glm.mat4_1 (glm.vec3i (i * 2 - 2) 0 0) /\
            model i = translation_x (i * 2 - 2) /\
            glm.xyz (glm.mulv (model i) (glm.vec4i 0 0 0 1)) = glm.vec3i (i * 2 - 2) 0 0)
         [0; 1; 2] /\
  (fun i => glm.xyz (glm.mulv (model i) (glm.vec4i 0 0 0 1))) <$> [0; 1; 2]
  = [glm.vec3i (-2) 0 0; glm.vec3i 0 0 0; glm.vec3i 2 0 0] /\
  exists w' before,
    frame (fun _ _ _ => glm.mat4_1) (fun _ _ _ _ => glm.mat4_1) (fun r => r) 4 1
          (only 2) example_world = Some (tt, w') /\
    length before = 5%nat /\
    GL.issued (gl w')
    = GL.issued (gl example_world) ++ before
      ++ flat_map (fun tx => pyramid_calls
                               (GL.uniform_location (gl example_world) 4 "model")
                               1 (translation_x tx))
                  [-2; 0; 2].
Proof.
  apply (C7_model_matrices (fun _ _ _ => glm.mat4_1) (fun _ _ _ _ => glm.mat4_1) (fun r => r)
                           4 1 (only 2) example_world).
  apply example_world_reachable.
Defined.

(** * Further properties *)

(** ** The camera state machine *)

(** Facts about the globals of the reachable worlds are proved on the
    initial globals and across one camera selection. *)
Lemma reachable_globals_ind (P : Globals -> Prop) :
  P initial_globals ->
  (forall glfwGetKey g, P g -> P (camera_after glfwGetKey g)) ->
  forall w, reachable w -> P (globals w).
Proof.
  intros Hinit Hstep.
  induction 1 as [w [Hg _]
                 | w glfwGetKey w' _ IH Hrun
                 | w filePath w' _ IH Hrun
                 | w type source w' _ IH Hrun
                 | w w' _ IH Hrun
                 | w lookAt perspective radians shaderProgram VAO glfwGetKey w' _ IH Hrun
                 | w input w' _ IH Hrun].
  - by rewrite Hg.
  - rewrite exec_processInput in Hrun. injection Hrun as <-. by apply Hstep.
  - by rewrite (keeps_exec _ _ _ _ (readFile_keeps_globals filePath) Hrun).
  - by rewrite (keeps_exec _ _ _ _ (compileShader_keeps_globals type source) Hrun).
  - by rewrite (keeps_exec _ _ _ _ uploadGeometry_keeps_globals Hrun).
  - rewrite (frame_globals _ _ _ _ _ _ _ _ Hrun). by apply Hstep.
  - unfold exec in Hrun. rewrite glfwPollEvents_spec in Hrun. by injection Hrun as <-.
Qed.

Lemma camera_after_view glfwGetKey v turned :
  camera_after glfwGetKey (view_globals v turned)
  = view_globals (selected_view glfwGetKey v)
                 (turned || is_pressed glfwGetKey GLFW.KEY_2).
Proof.
  unfold camera_after, selected_view, highest_pressed.
  destruct (is_pressed glfwGetKey GLFW.KEY_3), (is_pressed glfwGetKey GLFW.KEY_2),
    (is_pressed glfwGetKey GLFW.KEY_1), v, turned; by vm_compute.
Qed.

Lemma selected_view_occurs glfwGetKey v turned :
  occurs v turned ->
  occurs (selected_view glfwGetKey v) (turned || is_pressed glfwGetKey GLFW.KEY_2).
Proof.
  unfold occurs, selected_view. intros Hv.
  destruct (is_pressed glfwGetKey GLFW.KEY_3), (is_pressed glfwGetKey GLFW.KEY_2),
    (is_pressed glfwGetKey GLFW.KEY_1), v, turned; intros; try done; by apply Hv.
Qed.

Lemma reachable_view w :
  reachable w -> exists v turned, occurs v turned /\ globals w = view_globals v turned.
Proof.
  revert w.
  apply (reachable_globals_ind
           (fun g => exists v turned, occurs v turned /\ g = view_globals v turned)).
  - by exists FrontView, false.
  - intros glfwGetKey g (v & turned & Hv & ->).
    eexists _, _. split; [by apply selected_view_occurs | apply camera_after_view].
Qed.

(** X1: the camera has exactly five states.  In every reachable world the
    globals are those of one of the three views with one of the two up
    vectors, the top view only with the up vector (0,0,-1); and each of
    these five combinations is reached from the start by two
    [processInput] calls. *)
Theorem X1_camera_states :
  (forall w, reachable w ->
     exists v turned, occurs v turned /\ globals w = view_globals v turned) /\
  (forall v turned w0, occurs v turned -> starts w0 ->
     exists first second w,
       exec (processInput first;; processInput second) w0 = Some w /\
       globals w = view_globals v turned).
Proof.
  split; [exact reachable_view|].
  intros v turned w0 Hv [Hg0 _].
  exists (pressed (if turned then [GLFW.KEY_2] else [])),
         (pressed [GLFW.KEY_1 + view_index v]).
  eexists. unfold exec.
  rewrite (run_bind _ _ _ _ _ (processInput_spec _ w0)), processInput_spec.
  split; [reflexivity|].
  cbn [globals world_after snd fmap option_fmap option_map]. rewrite Hg0.
  change initial_globals with (view_globals FrontView false).
  rewrite !camera_after_view.
  destruct v, turned; try reflexivity. by specialize (Hv eq_refl).
Qed.

Lemma inputs_spec polls : forall w,
  inputs polls w = Some (tt, foldl (fun w glfwGetKey => world_after glfwGetKey w) w polls).
Proof.
  induction polls as [|glfwGetKey later IH]; intros w; simpl; [done|].
  rewrite (run_bind _ _ _ _ _ (processInput_spec glfwGetKey w)). apply IH.
Qed.

(** X2: the up vector is never turned back.  After any sequence of
    [processInput] calls it is (0,0,-1) if key 2 was down in one of them,
    and what it was before the sequence otherwise. *)
Theorem X2_up_never_restored (polls : list (Z -> Z)) (w : World) :
  exists w',
    inputs polls w = Some (tt, w') /\
    cameraUp (globals w') =
      if existsb (fun glfwGetKey => is_pressed glfwGetKey GLFW.KEY_2) polls
      then glm.vec3i 0 0 (-1)
      else cameraUp (globals w).
Proof.
  eexists. split; [apply inputs_spec|].
  revert w. induction polls as [|glfwGetKey later IH]; intros w; simpl; [done|].
  rewrite IH. simpl.
  destruct (is_pressed glfwGetKey GLFW.KEY_2); simpl; [|done].
  by destruct (existsb _ later).
Qed.

(** X3: with Escape and the keys 1, 2, 3 all up, [processInput] changes
    nothing at all. *)
Theorem X3_no_key_no_change (glfwGetKey : Z -> Z) (w : World) :
  no_key glfwGetKey ->
  processInput glfwGetKey w = Some (tt, w).
Proof.
  intros (Hescape & Hkey1 & Hkey2 & Hkey3).
  rewrite processInput_spec. do 2 f_equal.
  destruct w as [[center presets front up i] closing fs err ctx].
  unfold world_after, camera_after, highest_pressed.
  by rewrite Hescape, Hkey1, Hkey2, Hkey3.
Qed.

Lemma X3_no_key_no_change_witness :
  processInput (pressed [65; 32]) example_world = Some (tt, example_world).
Proof.
  apply (X3_no_key_no_change (pressed [65; 32]) example_world).
  repeat split; reflexivity.
Defined.

(** X4: [processInput] only ever sets the close flag.  After any sequence
    of calls the flag is up if it was up before or Escape was down in one
    of the calls; the files, [std::cerr] and the GL context are as they
    were. *)
Theorem X4_close_flag_monotone (polls : list (Z -> Z)) (w : World) :
  exists w',
    inputs polls w = Some (tt, w') /\
    windowShouldClose w' =
      existsb (fun glfwGetKey => is_pressed glfwGetKey GLFW.KEY_ESCAPE) polls
      || windowShouldClose w /\
    files w' = files w /\ cerr w' = cerr w /\ gl w' = gl w.
Proof.
  eexists. split; [apply inputs_spec|].
  revert w. induction polls as [|glfwGetKey later IH]; intros w; simpl; [done|].
  destruct (IH (world_after glfwGetKey w)) as (-> & -> & -> & ->). simpl.
  repeat split.
  by destruct (is_pressed glfwGetKey GLFW.KEY_ESCAPE), (existsb _ later),
    (windowShouldClose w).
Qed.

(** X5: a selection forgets the position before it.  When a call has a
    selection key down, the position index and the forward vector after it
    are the same whatever call came before. *)
Theorem X5_last_selection_wins (earlier glfwGetKey : Z -> Z) (w : World) :
  is_Some (highest_pressed glfwGetKey) ->
  exists w1 w2,
    exec (processInput earlier;; processInput glfwGetKey) w = Some w2 /\
    exec (processInput glfwGetKey) w = Some w1 /\
    currentCameraPosition (globals w2) = currentCameraPosition (globals w1) /\
    cameraFront (globals w2) = cameraFront (globals w1).
Proof.
  intros [i Hi].
  eexists _, _. unfold exec.
  rewrite (run_bind _ _ _ _ _ (processInput_spec earlier w)), !processInput_spec.
  split; [reflexivity|]. split; [reflexivity|].
  cbn [fmap option_fmap option_map snd globals world_after].
  assert (i = 1 \/ i = 2 \/ i = 3) as Hrange.
  { revert Hi. unfold highest_pressed. repeat case_match; intros [= <-]; auto. }
  unfold camera_after at 1 3 4 6. rewrite Hi.
  by destruct Hrange as [-> | [-> | ->]].
Qed.

Lemma X5_last_selection_wins_witness :
  exists w1 w2,
    exec (processInput (only 2);; processInput (pressed [GLFW.KEY_1; GLFW.KEY_ESCAPE]))
         example_world = Some w2 /\
    exec (processInput (pressed [GLFW.KEY_1; GLFW.KEY_ESCAPE])) example_world = Some w1 /\
    currentCameraPosition (globals w2) = currentCameraPosition (globals w1) /\
    cameraFront (globals w2) = cameraFront (globals w1).
Proof.
  apply (X5_last_selection_wins (only 2) (pressed [GLFW.KEY_1; GLFW.KEY_ESCAPE])
                                example_world).
  by exists 1.
Defined.

(** ** The frame, exactly *)

Section Exact.

Variable lookAt : glm.vec3 -> glm.vec3 -> glm.vec3 -> glm.mat4.
Variable perspective : f32.t -> f32.t -> f32.t -> f32.t -> glm.mat4.
Variable radians : f32.t -> f32.t.
Variables shaderProgram VAO : Z.

Lemma drawPyramid_exact i w :
  drawPyramid shaderProgram VAO i w
  = Some (tt, issue_all (pyramid_calls (GL.uniform_location (gl w) shaderProgram "model")
                                       VAO (model i)) w).
Proof.
  unfold drawPyramid, pyramid_calls.
  rewrite (run_bind _ _ _ _ _ (in_gl_location _ _ _)).
  rewrite (run_bind _ _ _ _ _ (in_gl_call_issue _ _)).
  rewrite (run_bind _ _ _ _ _ (in_gl_call_issue _ _)), issue_all_app.
  rewrite in_gl_call_issue, issue_all_app. reflexivity.
Qed.

(** With the eye position at hand, a frame is the camera selection followed
    by its calls. *)
Lemma frame_exact glfwGetKey w eye :
  camera_position (world_after glfwGetKey w) = Some eye ->
  frame lookAt perspective radians shaderProgram VAO glfwGetKey w
  = Some (tt, issue_all (frame_calls lookAt perspective radians shaderProgram VAO
                                     (GL.uniform_location (gl w))
                                     (camera_after glfwGetKey (globals w)) eye)
                        (world_after glfwGetKey w)).
Proof.
  unfold frame, camera_position.
  rewrite (run_bind _ _ _ _ _ (processInput_spec glfwGetKey w)).
  change (camera_after glfwGetKey (globals w)) with (globals (world_after glfwGetKey w)).
  change (gl w) with (gl (world_after glfwGetKey w)).
  generalize (world_after glfwGetKey w). clear w. intros w Heye.
  rewrite (run_bind _ _ _ _ _ (in_gl_call_issue _ _)).
  rewrite (run_bind _ _ _ _ _ (in_gl_call_issue _ _)), issue_all_app.
  rewrite (run_bind _ _ _ _ _ (in_gl_call_issue _ _)), issue_all_app.
  unfold gets at 1. unfold mbind at 1, M_bind at 1.
  change (globals (issue_all ?ks w)) with (globals w). rewrite Heye.
  unfold defined. unfold mbind at 1, M_bind at 1, mret at 1, M_ret at 1.
  rewrite (run_bind _ _ _ _ _ (in_gl_location _ _ _)).
  rewrite (run_bind _ _ _ _ _ (in_gl_call_issue _ _)), issue_all_app.
  rewrite (run_bind _ _ _ _ _ (in_gl_location _ _ _)).
  rewrite (run_bind _ _ _ _ _ (in_gl_call_issue _ _)), issue_all_app.
  unfold for_each. change (seqZ 0 (Z.of_nat 3)) with [0; 1; 2].
  unfold foldr.
  rewrite (run_bind _ _ _ _ _ (drawPyramid_exact _ _)), issue_all_app.
  rewrite (run_bind _ _ _ _ _ (drawPyramid_exact _ _)), issue_all_app.
  rewrite (run_bind _ _ _ _ _ (drawPyramid_exact _ _)), issue_all_app.
  unfold frame_calls. cbn [flat_map].
  change (GL.uniform_location (gl (issue_all ?ks w))) with (GL.uniform_location (gl w)).
  rewrite <- !app_assoc, app_nil_r. reflexivity.
Qed.

Lemma frame_runs glfwGetKey w :
  0 <= currentCameraPosition (globals w) <= 2 ->
  exists eye,
    camera_position (world_after glfwGetKey w) = Some eye /\
    frame lookAt perspective radians shaderProgram VAO glfwGetKey w
    = Some (tt, issue_all (frame_calls lookAt perspective radians shaderProgram VAO
                                       (GL.uniform_location (gl w))
                                       (camera_after glfwGetKey (globals w)) eye)
                          (world_after glfwGetKey w)).
Proof.
  intros Hindex.
  destruct (subscript_in_range (cameraPositions (globals w))
              (currentCameraPosition (camera_after glfwGetKey (globals w))))
    as [eye Heye]; [by apply camera_after_index|].
  exists eye. split; [exact Heye|]. by apply frame_exact.
Qed.

End Exact.

(** ** The view matrix *)

Lemma view_index_range v : 0 <= view_index v <= 2.
Proof. destruct v; simpl; lia. Qed.

(** X6: the view matrix of a frame has a NaN entry exactly when the camera
    is at the front position with the up vector (0,0,-1), that is, once the
    front view is selected after the top view: forward and up are then
    parallel.  The frame hands this matrix to the driver all the same. *)
Theorem X6_view_matrix_nan
    (perspective : f32.t -> f32.t -> f32.t -> f32.t -> glm.mat4)
    (radians : f32.t -> f32.t) (shaderProgram VAO : Z) (glfwGetKey : Z -> Z) (w : World) :
  reachable w ->
  exists w' view,
    frame matrix_transform.lookAt perspective radians shaderProgram VAO glfwGetKey w
    = Some (tt, w') /\
    view_matrix (globals w') = Some view /\
    GL.UniformMatrix4fv (GL.uniform_location (gl w) shaderProgram "view") view
      ∈ GL.issued (gl w') /\
    (matrix_transform.mat4_has_nan view = true <->
     currentCameraPosition (globals w') = 0 /\ cameraUp (globals w') = glm.vec3i 0 0 (-1)).
Proof.
  intros Hreach.
  destruct (reachable_view w Hreach) as (v0 & turned0 & Hoccurs0 & Hglobals).
  pose proof (selected_view_occurs glfwGetKey _ _ Hoccurs0) as Hoccurs.
  pose proof (camera_after_view glfwGetKey v0 turned0) as Hafter.
  rewrite <- Hglobals in Hafter.
  set (v := selected_view glfwGetKey v0) in *.
  set (turned := turned0 || is_pressed glfwGetKey GLFW.KEY_2) in *.
  destruct (frame_runs matrix_transform.lookAt perspective radians shaderProgram VAO
              glfwGetKey w) as (eye & Heye & Hframe).
  { rewrite Hglobals. apply view_index_range. }
  eexists _, _. split; [exact Hframe|].
  unfold camera_position in Heye.
  change (globals (issue_all ?ks (world_after glfwGetKey w)))
    with (camera_after glfwGetKey (globals w)).
  change (globals (world_after glfwGetKey w))
    with (camera_after glfwGetKey (globals w)) in Heye.
  split; [unfold view_matrix; rewrite Heye; reflexivity|].
  split.
  { unfold issue_all, set_gl, frame_calls. cbn [gl GL.issued].
    rewrite !elem_of_app. right. left. set_solver. }
  revert Heye Hoccurs. rewrite Hafter. clearbody v turned. clear.
  destruct v, turned; intros [= <-] Hoccurs.
  4: discriminate (Hoccurs eq_refl).
  all: vm_compute; split; [discriminate || (intros _; split; reflexivity) |].
  all: try (intros _; reflexivity).
  all: intros [Hindex Hup]; discriminate.
Qed.

Lemma X6_view_matrix_nan_witness :
  exists w' view,
    frame matrix_transform.lookAt (fun _ _ _ _ => glm.mat4_1) (fun r => r) 4 1 (only 1)
          (world_after (only 2) example_world)
    = Some (tt, w') /\
    view_matrix (globals w') = Some view /\
    GL.UniformMatrix4fv
      (GL.uniform_location (gl (world_after (only 2) example_world)) 4 "view") view
      ∈ GL.issued (gl w') /\
    (matrix_transform.mat4_has_nan view = true <->
     currentCameraPosition (globals w') = 0 /\ cameraUp (globals w') = glm.vec3i 0 0 (-1)).
Proof.
  apply (X6_view_matrix_nan (fun _ _ _ _ => glm.mat4_1) (fun r => r) 4 1 (only 1)
                            (world_after (only 2) example_world)).
  apply (reachable_processInput example_world (only 2)).
  - apply example_world_reachable.
  - apply exec_processInput.
Defined.

(** X7: in every other reachable state the view matrix is a proper camera
    frame: it takes the camera position to the origin and the scene center
    to the point 10 units straight ahead, (0,0,-10). *)
Theorem X7_view_matrix_centers_scene (w : World) :
  reachable w ->
  ~ (currentCameraPosition (globals w) = 0 /\ cameraUp (globals w) = glm.vec3i 0 0 (-1)) ->
  exists eye view,
    camera_position w = Some eye /\
    view_matrix (globals w) = Some view /\
    matrix_transform.mat4_has_nan view = false /\
    glm.mulv view (point eye) = glm.vec4i 0 0 0 1 /\
    glm.mulv view (point (sceneCenter (globals w))) = glm.vec4i 0 0 (-10) 1.
Proof.
  intros Hreach Hproper.
  destruct (reachable_view w Hreach) as (v & turned & Hoccurs & Hglobals).
  unfold camera_position. rewrite Hglobals in *. clear Hglobals Hreach.
  destruct v, turned.
  - exfalso. apply Hproper. by vm_compute.
  - eexists _, _. split; [reflexivity|]. split; [reflexivity|]. by vm_compute.
  - eexists _, _. split; [reflexivity|]. split; [reflexivity|]. by vm_compute.
  - by specialize (Hoccurs eq_refl).
  - eexists _, _. split; [reflexivity|]. split; [reflexivity|]. by vm_compute.
  - eexists _, _. split; [reflexivity|]. split; [reflexivity|]. by vm_compute.
Qed.

Lemma X7_view_matrix_centers_scene_witness :
  exists eye view,
    camera_position (world_after (pressed [GLFW.KEY_2; GLFW.KEY_3]) example_world)
      = Some eye /\
    view_matrix (globals (world_after (pressed [GLFW.KEY_2; GLFW.KEY_3]) example_world))
      = Some view /\
    matrix_transform.mat4_has_nan view = false /\
    glm.mulv view (point eye) = glm.vec4i 0 0 0 1 /\
    glm.mulv view
      (point (sceneCenter
                (globals (world_after (pressed [GLFW.KEY_2; GLFW.KEY_3]) example_world))))
      = glm.vec4i 0 0 (-10) 1.
Proof.
  apply (X7_view_matrix_centers_scene
           (world_after (pressed [GLFW.KEY_2; GLFW.KEY_3]) example_world)).
  - apply (reachable_processInput example_world (pressed [GLFW.KEY_2; GLFW.KEY_3])).
    + apply example_world_reachable.
    + apply exec_processInput.
  - intros [Hindex _]. vm_compute in Hindex. discriminate.
Defined.

(** ** The render loop as a whole *)

Lemma bind_run_eq {S A B} (c c' : M S A) (f : A -> M S B) s :
  c s = c' s -> (c ≫= f) s = (c' ≫= f) s.
Proof. intros Hc. unfold mbind, M_bind. by rewrite Hc. Qed.

Lemma bind_bind_run {S A B C} (c : M S A) (f : A -> M S B) (g : B -> M S C) s :
  ((c ≫= f) ≫= g) s = (c ≫= fun a => f a ≫= g) s.
Proof. unfold mbind, M_bind. by destruct (c s) as [[a s1]|]. Qed.

Section Loop.

Variable lookAt : glm.vec3 -> glm.vec3 -> glm.vec3 -> glm.mat4.
Variable perspective : f32.t -> f32.t -> f32.t -> f32.t -> glm.mat4.
Variable radians : f32.t -> f32.t.
Variables shaderProgram VAO : Z.

Local Abbreviation frame' := (frame lookAt perspective radians shaderProgram VAO).
Local Abbreviation iteration' := (iteration lookAt perspective radians shaderProgram VAO).
Local Abbreviation renderLoop' := (renderLoop lookAt perspective radians shaderProgram VAO).

Lemma renderLoop_closing polls w :
  windowShouldClose w = true -> renderLoop' polls w = Some (tt, w).
Proof.
  intros Hclosing. destruct polls as [|input later]; simpl; [done|].
  unfold gets. unfold mbind at 1, M_bind at 1. by rewrite Hclosing.
Qed.

Lemma renderLoop_open input later w :
  windowShouldClose w = false ->
  renderLoop' (input :: later) w = (iteration' input;; renderLoop' later) w.
Proof.
  intros Hopen. simpl. unfold gets. unfold mbind at 1, M_bind at 1. by rewrite Hopen.
Qed.

(** An iteration is its frame followed by the events. *)
Lemma iteration_frame input w w1 :
  frame' (keys input) w = Some (tt, w1) ->
  iteration' input w
  = Some (tt, mkWorld (globals w1) (close_requested input || windowShouldClose w1)
                      (files w1) (cerr w1) (gl (issue_all (viewports input) w1))).
Proof.
  intros Hframe. unfold iteration. rewrite (run_bind _ _ _ _ _ Hframe).
  unfold glfwSwapBuffers. unfold mret at 1, M_ret at 1. unfold mbind at 1, M_bind at 1.
  apply glfwPollEvents_spec.
Qed.

(** Whatever a frame returns, its close flag is the one [processInput]
    left. *)
Lemma frame_close_flag glfwGetKey w w' :
  frame' glfwGetKey w = Some (tt, w') ->
  windowShouldClose w' = is_pressed glfwGetKey GLFW.KEY_ESCAPE || windowShouldClose w.
Proof.
  unfold frame. rewrite (run_bind _ _ _ _ _ (processInput_spec glfwGetKey w)).
  change (is_pressed glfwGetKey GLFW.KEY_ESCAPE || windowShouldClose w)
    with (windowShouldClose (world_after glfwGetKey w)).
  generalize (world_after glfwGetKey w). clear w. intros w.
  rewrite (run_bind _ _ _ _ _ (in_gl_call_issue _ _)).
  rewrite (run_bind _ _ _ _ _ (in_gl_call_issue _ _)), issue_all_app.
  rewrite (run_bind _ _ _ _ _ (in_gl_call_issue _ _)), issue_all_app.
  unfold gets at 1. unfold mbind at 1, M_bind at 1.
  change (globals (issue_all ?ks w)) with (globals w).
  destruct (subscript _ _) as [eye|]; [|done].
  unfold defined. unfold mbind at 1, M_bind at 1, mret at 1, M_ret at 1.
  rewrite (run_bind _ _ _ _ _ (in_gl_location _ _ _)).
  rewrite (run_bind _ _ _ _ _ (in_gl_call_issue _ _)), issue_all_app.
  rewrite (run_bind _ _ _ _ _ (in_gl_location _ _ _)).
  rewrite (run_bind _ _ _ _ _ (in_gl_call_issue _ _)), issue_all_app.
  unfold for_each. change (seqZ 0 (Z.of_nat 3)) with [0; 1; 2].
  unfold foldr.
  rewrite (run_bind _ _ _ _ _ (drawPyramid_exact _ _ _ _)), issue_all_app.
  rewrite (run_bind _ _ _ _ _ (drawPyramid_exact _ _ _ _)), issue_all_app.
  rewrite (run_bind _ _ _ _ _ (drawPyramid_exact _ _ _ _)), issue_all_app.
  by intros [= <-].
Qed.

(** Whatever an iteration returns, its close flag is the one [processInput]
    and the events left. *)
Lemma iteration_close_flag input w w' :
  iteration' input w = Some (tt, w') ->
  windowShouldClose w' = closes input || windowShouldClose w.
Proof.
  intros Hrun.
  destruct (frame' (keys input) w) as [[[] w1]|] eqn:Hframe.
  - rewrite (iteration_frame _ _ _ Hframe) in Hrun. injection Hrun as <-.
    cbn [windowShouldClose]. rewrite (frame_close_flag _ _ _ Hframe).
    unfold closes.
    by destruct (is_pressed _ _), (close_requested input), (windowShouldClose w).
  - unfold iteration in Hrun. unfold mbind at 1, M_bind at 1 in Hrun.
    by rewrite Hframe in Hrun.
Qed.

(** X8: the render loop over two runs of inputs, one after the other, is
    the render loop over their concatenation: a loop that has seen the
    close flag draws nothing more. *)
Theorem X8_renderLoop_app (first second : list Input) (w : World) :
  renderLoop' (first ++ second) w = (renderLoop' first;; renderLoop' second) w.
Proof.
  revert w. induction first as [|input later IH]; intros w.
  - reflexivity.
  - destruct (windowShouldClose w) eqn:Hflag.
    + rewrite (run_bind _ _ _ _ _ (renderLoop_closing _ w Hflag)).
      by rewrite !renderLoop_closing.
    + change ((input :: later) ++ second) with (input :: (later ++ second)).
      rewrite renderLoop_open by done.
      rewrite (bind_run_eq _ _ _ _ (renderLoop_open input later w Hflag)).
      rewrite bind_bind_run.
      destruct (iteration' input w) as [[[] w1]|] eqn:Hiteration.
      * rewrite !(run_bind _ _ _ _ _ Hiteration). apply IH.
      * unfold mbind, M_bind. by rewrite Hiteration.
Qed.

(** X9: the iteration in which Escape is down, or in which the user asks
    to close the window, is still carried out in full, and it is the last:
    the loop over that input and any later ones is this one iteration. *)
Theorem X9_escape_ends_loop (input : Input) (later : list Input) (w : World) :
  windowShouldClose w = false ->
  closes input = true ->
  renderLoop' (input :: later) w = iteration' input w.
Proof.
  intros Hopen Hcloses. rewrite renderLoop_open by done.
  unfold mbind, M_bind.
  destruct (iteration' input w) as [[[] w1]|] eqn:Hiteration; [|done].
  apply renderLoop_closing.
  rewrite (iteration_close_flag _ _ _ Hiteration). by rewrite Hcloses.
Qed.

Lemma draws_app ks ks' : draws (ks ++ ks') = (draws ks + draws ks')%nat.
Proof. unfold draws. by rewrite filter_app, length_app. Qed.

Lemma draws_frame_calls location g eye :
  draws (frame_calls lookAt perspective radians shaderProgram VAO location g eye) = 3%nat.
Proof. reflexivity. Qed.

Lemma draws_viewports input : draws (viewports input) = 0%nat.
Proof.
  unfold viewports. induction (resized input) as [|size sizes IH]; [done|]. exact IH.
Qed.

(** What the render loop does from a reachable world. *)
Lemma renderLoop_runs (polls : list Input) (w : World) :
  reachable w ->
  exists w',
    renderLoop' polls w = Some (tt, w') /\
    reachable w' /\
    draws (GL.issued (gl w'))
    = (draws (GL.issued (gl w)) + 3 * frames_drawn polls (windowShouldClose w))%nat /\
    files w' = files w /\ cerr w' = cerr w /\
    GL.shaders (gl w') = GL.shaders (gl w) /\
    GL.buffers (gl w') = GL.buffers (gl w) /\
    GL.requests (gl w') = GL.requests (gl w) /\
    windowShouldClose w' = windowShouldClose w || close_seen polls.
Proof.
  revert w. induction polls as [|input later IH]; intros w Hreach.
  - exists w. unfold close_seen. simpl. rewrite orb_false_r.
    destruct (windowShouldClose w); repeat split; (done || lia).
  - destruct (windowShouldClose w) eqn:Hflag.
    + exists w. rewrite renderLoop_closing by done. simpl. repeat split; (done || lia).
    + destruct (reachable_invariant w Hreach) as (_ & _ & Hindex).
      destruct (frame_runs lookAt perspective radians shaderProgram VAO (keys input) w Hindex)
        as (eye & _ & Hframe).
      pose proof (iteration_frame _ _ _ Hframe) as Hiteration.
      match type of Hframe with _ = Some (_, ?next) => set (w1 := next) in * end.
      match type of Hiteration with _ = Some (_, ?next) => set (w2 := next) in * end.
      assert (reachable w2) as Hreach2.
      { apply (reachable_glfwPollEvents w1 input).
        - apply (reachable_frame w lookAt perspective radians shaderProgram VAO (keys input)).
          + exact Hreach.
          + unfold exec. by rewrite Hframe.
        - unfold exec. by rewrite glfwPollEvents_spec. }
      rewrite renderLoop_open by done.
      rewrite (run_bind _ _ _ _ _ Hiteration).
      destruct (IH w2 Hreach2)
        as (w' & Hloop & Hreach' & Hdraws & Hfiles & Hcerr & Hshaders & Hbuffers & Hnames
            & Hclose).
      assert (windowShouldClose w2 = closes input) as Hflag2.
      { rewrite (iteration_close_flag _ _ _ Hiteration). by rewrite Hflag, orb_false_r. }
      exists w'. split; [exact Hloop|]. split; [exact Hreach'|].
      split.
      { rewrite Hdraws, Hflag2. simpl frames_drawn.
        subst w2 w1. unfold issue_all, set_gl. cbn [gl GL.issued world_after].
        rewrite !draws_app, draws_frame_calls, draws_viewports. lia. }
      rewrite Hfiles, Hcerr, Hshaders, Hbuffers, Hnames, Hclose, Hflag2.
      unfold close_seen. by cbn [existsb].
Qed.

(** X10: from a reachable world the render loop always returns.  It makes
    three [glDrawElements] calls in every iteration until the close flag
    is up, and none after; it leaves the files, [std::cerr], the shader
    objects and the buffers alone. *)
Theorem X10_renderLoop_footprint (polls : list Input) (w : World) :
  reachable w ->
  exists w',
    renderLoop' polls w = Some (tt, w') /\
    reachable w' /\
    draws (GL.issued (gl w'))
    = (draws (GL.issued (gl w)) + 3 * frames_drawn polls (windowShouldClose w))%nat /\
    windowShouldClose w' = windowShouldClose w || close_seen polls /\
    files w' = files w /\ cerr w' = cerr w /\
    GL.shaders (gl w') = GL.shaders (gl w) /\
    GL.buffers (gl w') = GL.buffers (gl w).
Proof.
  intros Hreach.
  destruct (renderLoop_runs polls w Hreach)
    as (w' & Hloop & Hreach' & Hdraws & Hfiles & Hcerr & Hshaders & Hbuffers & _ & Hclose).
  by exists w'.
Qed.

End Loop.

Lemma X9_escape_ends_loop_witness :
  renderLoop matrix_transform.lookAt (fun _ _ _ _ => glm.mat4_1) (fun r => r) 1 4
             [just_keys (pressed [GLFW.KEY_ESCAPE; GLFW.KEY_3]); just_keys (only 1)]
             example_world
  = iteration matrix_transform.lookAt (fun _ _ _ _ => glm.mat4_1) (fun r => r) 1 4
              (just_keys (pressed [GLFW.KEY_ESCAPE; GLFW.KEY_3])) example_world.
Proof.
  apply (X9_escape_ends_loop matrix_transform.lookAt (fun _ _ _ _ => glm.mat4_1)
           (fun r => r) 1 4 (just_keys (pressed [GLFW.KEY_ESCAPE; GLFW.KEY_3]))
           [just_keys (only 1)] example_world).
  - reflexivity.
  - reflexivity.
Defined.

Lemma X10_renderLoop_footprint_witness :
  exists w',
    renderLoop matrix_transform.lookAt (fun _ _ _ _ => glm.mat4_1) (fun r => r) 1 4
               [just_keys (only 2); mkInput (pressed []) [(640%Z, 480%Z)] true;
                just_keys (only 1)] example_world
    = Some (tt, w') /\
    reachable w' /\
    draws (GL.issued (gl w'))
    = (draws (GL.issued (gl example_world))
       + 3 * frames_drawn [just_keys (only 2); mkInput (pressed []) [(640%Z, 480%Z)] true;
                           just_keys (only 1)]
                          (windowShouldClose example_world))%nat /\
    windowShouldClose w'
    = windowShouldClose example_world
      || close_seen [just_keys (only 2); mkInput (pressed []) [(640%Z, 480%Z)] true;
                     just_keys (only 1)] /\
    files w' = files example_world /\ cerr w' = cerr example_world /\
    GL.shaders (gl w') = GL.shaders (gl example_world) /\
    GL.buffers (gl w') = GL.buffers (gl example_world).
Proof.
  apply (X10_renderLoop_footprint matrix_transform.lookAt (fun _ _ _ _ => glm.mat4_1)
           (fun r => r) 1 4
           [just_keys (only 2); mkInput (pressed []) [(640%Z, 480%Z)] true; just_keys (only 1)]
           example_world).
  apply example_world_reachable.
Defined.

(** ** [readFile] and [compileShader], case by case *)

Lemma append_same_l (s t : string) : (s ++ t)%string = s -> t = "".
Proof.
  induction s as [|a s IH]; simpl; [done|].
  intros [= Hs]. by apply IH.
Qed.

(** X11: [readFile] returns the empty string for a missing file and for an
    empty file alike; the caller can tell them apart by [std::cerr] only,
    which grows exactly when the file is missing.  Nothing else changes. *)
Theorem X11_readFile_missing_or_empty (filePath : string) (w : World) :
  exists contents w',
    readFile filePath w = Some (contents, w') /\
    (contents = "" <-> files w !! filePath = None \/ files w !! filePath = Some "") /\
    (cerr w' = cerr w <-> is_Some (files w !! filePath)) /\
    globals w' = globals w /\ windowShouldClose w' = windowShouldClose w /\
    files w' = files w /\ gl w' = gl w.
Proof.
  assert (gets (fun w => files w !! filePath) w = Some (files w !! filePath, w)) as Hopen
    by reflexivity.
  unfold readFile. rewrite (run_bind _ _ _ _ _ Hopen).
  destruct (files w !! filePath) as [contents|].
  - exists contents, w. split; [reflexivity|]. split.
    + split; [intros ->; by right | intros [[=] | [= ->]]; done].
    + by repeat split.
  - eexists "", _. split; [reflexivity|]. split; [by split; [left|]|].
    split; [|done]. cbn [cerr]. split.
    + intros Hsame%append_same_l. discriminate.
    + by intros [? [=]].
Qed.



(** A compilation that returns has created its object, and ends in one of
    two worlds. *)
Lemma compileShader_effect (type : Z) (source : string) (w w' : World) (id : Z) :
  no_shader_zero (gl w) ->
  compileShader type source w = Some (id, w') ->
  GL.upcoming (gl w) 0 <> 0 /\
  (id = 0 ->
   exists log,
     GL.glsl (gl w) type (c_str source) = GL.Failed log /\ w' = world_rejected type log w) /\
  (id <> 0 ->
   id = GL.upcoming (gl w) 0 /\
   GL.glsl (gl w) type (c_str source) = GL.Compiled /\ w' = world_compiled type source w).
Proof.
  intros Hzero Hrun.
  destruct (GL.is_shader_type type) eqn:Htype.
  2: { rewrite compileShader_not_created in Hrun; [done | by left | done]. }
  destruct (decide (GL.upcoming (gl w) 0 = 0)) as [Hfailed|Hcreated].
  { rewrite compileShader_not_created in Hrun; [done | by right | done]. }
  split; [done|].
  rewrite compileShader_created in Hrun by done.
  destruct (GL.glsl (gl w) type (c_str source)) as [|log].
  - injection Hrun as <- <-. split; [done|]. by intros _.
  - destruct (decide (log = "")) as [|Hlog]; [done|].
    injection Hrun as <- <-. split; [|done]. intros _. by exists log.
Qed.

(** X13: a [compileShader] call that returns has been given a name other
    than 0 by the driver.  After a failed one (the result is 0) the object
    under that name is gone, so that the shader objects are those from
    before when the name was not in use, as GL promises; after a
    successful one there is exactly one object more, under the name
    returned, and it holds the C string of the source.  Neither touches
    the buffers, the files, the globals or the close flag. *)
Theorem X13_compileShader_objects (type : Z) (source : string) (w w' : World) (id : Z) :
  no_shader_zero (gl w) ->
  compileShader type source w = Some (id, w') ->
  GL.upcoming (gl w) 0 <> 0 /\
  (id = 0 ->
   GL.shaders (gl w') = delete (GL.upcoming (gl w) 0) (GL.shaders (gl w)) /\
   (GL.shaders (gl w) !! GL.upcoming (gl w) 0 = None ->
    GL.shaders (gl w') = GL.shaders (gl w))) /\
  (id <> 0 ->
   id = GL.upcoming (gl w) 0 /\
   GL.shaders (gl w')
   = <[id := GL.mkShader type (c_str source) GL.Compiled]> (GL.shaders (gl w))) /\
  no_shader_zero (gl w') /\
  GL.buffers (gl w') = GL.buffers (gl w) /\
  files w' = files w /\ globals w' = globals w /\
  windowShouldClose w' = windowShouldClose w.
Proof.
  intros Hzero Hrun.
  destruct (compileShader_effect _ _ _ _ _ Hzero Hrun) as (Hcreated & Hfailed & Hcompiled).
  split; [done|].
  destruct (decide (id = 0)) as [->|Hid].
  - destruct (Hfailed eq_refl) as (log & _ & ->).
    split; [|split; [done|]].
    + intros _. cbn. split; [done|]. intros Hunused. by apply delete_id.
    + split; [|done]. unfold no_shader_zero. cbn. by rewrite lookup_delete_ne.
  - destruct (Hcompiled Hid) as (-> & _ & ->).
    split; [done|]. split; [by intros _|].
    split; [|done]. unfold no_shader_zero. cbn. by rewrite lookup_insert_ne.
Qed.

Lemma X13_compileShader_objects_witness :
  GL.upcoming (gl example_world) 0 <> 0 /\
  (0 = 0 ->
   GL.shaders (gl (world_rejected GL.VERTEX_SHADER "ERROR: 0:1: syntax error"
                                  example_world))
   = delete (GL.upcoming (gl example_world) 0) (GL.shaders (gl example_world)) /\
   (GL.shaders (gl example_world) !! GL.upcoming (gl example_world) 0 = None ->
    GL.shaders (gl (world_rejected GL.VERTEX_SHADER "ERROR: 0:1: syntax error"
                                   example_world))
    = GL.shaders (gl example_world))) /\
  (0 <> 0 ->
   0 = GL.upcoming (gl example_world) 0 /\
   GL.shaders (gl (world_rejected GL.VERTEX_SHADER "ERROR: 0:1: syntax error"
                                  example_world))
   = <[0 := GL.mkShader GL.VERTEX_SHADER (c_str "") GL.Compiled]>
       (GL.shaders (gl example_world))) /\
  no_shader_zero (gl (world_rejected GL.VERTEX_SHADER "ERROR: 0:1: syntax error"
                                     example_world)) /\
  GL.buffers (gl (world_rejected GL.VERTEX_SHADER "ERROR: 0:1: syntax error"
                                 example_world))
    = GL.buffers (gl example_world) /\
  files (world_rejected GL.VERTEX_SHADER "ERROR: 0:1: syntax error" example_world)
    = files example_world /\
  globals (world_rejected GL.VERTEX_SHADER "ERROR: 0:1: syntax error" example_world)
    = globals example_world /\
  windowShouldClose (world_rejected GL.VERTEX_SHADER "ERROR: 0:1: syntax error"
                                    example_world)
    = windowShouldClose example_world.
Proof.
  apply (X13_compileShader_objects GL.VERTEX_SHADER "" example_world
           (world_rejected GL.VERTEX_SHADER "ERROR: 0:1: syntax error" example_world) 0).
  - reflexivity.
  - by rewrite compileShader_created.
Defined.

(** ** [createShaderProgram] *)

Lemma in_world_run {A} (c : M World A) s a w :
  c (Life.world s) = Some (a, w) ->
  Life.in_world c s
  = Some (a, Life.mkProcess w (Life.programs s) (Life.flagged s) (Life.events s)).
Proof. intros Hc. unfold Life.in_world. by rewrite Hc. Qed.

Lemma glAttachShader_zero program w ps fl ev :
  no_shader_zero (gl w) ->
  Life.glAttachShader program 0 (Life.mkProcess w ps fl ev)
  = Some (tt, Life.mkProcess w ps fl ev).
Proof.
  intros Hzero. unfold Life.glAttachShader, get. unfold mbind, M_bind.
  cbn [Life.world Life.programs]. rewrite Hzero. by destruct (ps !! program).
Qed.

Lemma glAttachShader_new program shader attached object w ps fl ev :
  ps !! program = Some attached ->
  GL.shaders (gl w) !! shader = Some object ->
  shader ∉ attached ->
  Life.glAttachShader program shader (Life.mkProcess w ps fl ev)
  = Some (tt, Life.mkProcess w (<[program := attached ++ [shader]]> ps) fl ev).
Proof.
  intros Hprogram Hshader Hnew. unfold Life.glAttachShader, get. unfold mbind, M_bind.
  cbn [Life.world Life.programs]. rewrite Hprogram, Hshader. by rewrite decide_False.
Qed.

Lemma glDeleteShader_zero s : Life.glDeleteShader 0 s = Some (tt, s).
Proof. reflexivity. Qed.

Lemma glDeleteShader_attached shader program attached w ps fl ev :
  shader <> 0 ->
  ps !! program = Some attached ->
  shader ∈ attached ->
  Life.glDeleteShader shader (Life.mkProcess w ps fl ev)
  = Some (tt, Life.mkProcess w ps (fl ∪ {[shader]}) ev).
Proof.
  intros Hshader Hprogram Hattached. unfold Life.glDeleteShader, get. unfold mbind, M_bind.
  rewrite decide_False by done. rewrite decide_True; [done|].
  by apply (map_Exists_lookup_2 _ _ program attached).
Qed.

Lemma event_step e w ps fl ev :
  Life.event e (Life.mkProcess w ps fl ev) = Some (tt, Life.mkProcess w ps fl (ev ++ [e])).
Proof. reflexivity. Qed.

(** One step of a computation on the world, given its result. *)
Ltac step_world H :=
  match goal with
  | |- context [(Life.in_world ?c ≫= ?f) ?s] =>
      rewrite (run_bind _ f s _ _ (in_world_run c s _ _ H))
  end.

(** The world in which the vertex stage is compiled: the driver has
    answered the request for the name of the program. *)
Lemma glCreateProgram_run s :
  GL.upcoming (gl (Life.world s)) 0 <> 0 ->
  Life.glCreateProgram s
  = Some (GL.upcoming (gl (Life.world s)) 0,
          Life.mkProcess
            (set_gl (GL.set_requests (S (GL.requests (gl (Life.world s))))
                                     (gl (Life.world s))) (Life.world s))
            (<[GL.upcoming (gl (Life.world s)) 0 := []]> (Life.programs s))
            (Life.flagged s) (Life.events s)).
Proof.
  intros Hcreated. unfold Life.glCreateProgram.
  rewrite (run_bind _ _ _ _ _ (in_world_run _ s _ _ (in_gl_gen_name (Life.world s)))).
  by rewrite decide_False.
Qed.

Lemma compiled_stages_cases vs fs :
  compiled_stages vs fs
  = (if decide (vs = 0) then [] else [vs]) ++ (if decide (fs = 0) then [] else [fs]).
Proof.
  unfold compiled_stages. rewrite !filter_cons, filter_nil.
  by repeat case_decide.
Qed.

(** [createShaderProgram] after the two compilations, for what they
    returned. *)
Lemma createShaderProgram_spec vertexShader fragmentShader s vs w1 fs w2 :
  let c := gl (Life.world s) in
  let program := GL.upcoming c 0 in
  program <> 0 ->
  compileShader GL.VERTEX_SHADER vertexShader
    (set_gl (GL.set_requests (S (GL.requests c)) c) (Life.world s))
  = Some (vs, w1) ->
  compileShader GL.FRAGMENT_SHADER fragmentShader w1 = Some (fs, w2) ->
  no_shader_zero (gl w2) ->
  (vs <> 0 -> is_Some (GL.shaders (gl w2) !! vs)) ->
  (fs <> 0 -> is_Some (GL.shaders (gl w2) !! fs)) ->
  (vs <> 0 -> fs <> 0 -> vs <> fs) ->
  createShaderProgram vertexShader fragmentShader s
  = Some (program,
          Life.mkProcess w2
            (<[program := compiled_stages vs fs]> (Life.programs s))
            (Life.flagged s ∪ list_to_set (compiled_stages vs fs))
            (Life.events s ++ [Life.LinkProgram program; Life.ValidateProgram program])).
Proof.
  intros c program Hprogram Hvs Hfs Hzero Hvs_alive Hfs_alive Hdistinct.
  unfold createShaderProgram.
  rewrite (run_bind _ _ _ _ _ (glCreateProgram_run s Hprogram)). fold c program.
  step_world Hvs. cbn [Life.world Life.programs Life.flagged Life.events].
  step_world Hfs. cbn [Life.world Life.programs Life.flagged Life.events].
  rewrite compiled_stages_cases.
  destruct (decide (vs = 0)) as [->|Hvs_ne], (decide (fs = 0)) as [->|Hfs_ne].
  - rewrite (run_bind _ _ _ _ _ (glAttachShader_zero _ _ _ _ _ Hzero)).
    rewrite (run_bind _ _ _ _ _ (glAttachShader_zero _ _ _ _ _ Hzero)).
    rewrite !(run_bind _ _ _ _ _ (event_step _ _ _ _ _)).
    rewrite !(run_bind _ _ _ _ _ (glDeleteShader_zero _)).
    cbn. rewrite <- app_assoc. unfold mret, M_ret. do 3 f_equal. clear. set_solver.
  - rewrite (run_bind _ _ _ _ _ (glAttachShader_zero _ _ _ _ _ Hzero)).
    destruct (Hfs_alive Hfs_ne) as [object Hobject].
    rewrite (run_bind _ _ _ _ _
               (glAttachShader_new program fs [] object _ _ _ _
                                   (lookup_insert_eq _ _ _) Hobject (not_elem_of_nil _))).
    rewrite !(run_bind _ _ _ _ _ (event_step _ _ _ _ _)).
    rewrite (run_bind _ _ _ _ _ (glDeleteShader_zero _)).
    rewrite (run_bind _ _ _ _ _
               (glDeleteShader_attached fs program [fs] _ _ _ _ Hfs_ne
                                        (lookup_insert_eq _ _ _) (list_elem_of_here _ _))).
    cbn. rewrite insert_insert_eq, <- app_assoc.
    unfold mret, M_ret. do 3 f_equal. clear. set_solver.
  - destruct (Hvs_alive Hvs_ne) as [object Hobject].
    rewrite (run_bind _ _ _ _ _
               (glAttachShader_new program vs [] object _ _ _ _
                                   (lookup_insert_eq _ _ _) Hobject (not_elem_of_nil _))).
    rewrite (run_bind _ _ _ _ _ (glAttachShader_zero _ _ _ _ _ Hzero)).
    rewrite !(run_bind _ _ _ _ _ (event_step _ _ _ _ _)).
    rewrite (run_bind _ _ _ _ _
               (glDeleteShader_attached vs program [vs] _ _ _ _ Hvs_ne
                                        (lookup_insert_eq _ _ _) (list_elem_of_here _ _))).
    rewrite (run_bind _ _ _ _ _ (glDeleteShader_zero _)).
    cbn. rewrite insert_insert_eq, <- app_assoc.
    unfold mret, M_ret. do 3 f_equal. clear. set_solver.
  - destruct (Hvs_alive Hvs_ne) as [object Hobject].
    destruct (Hfs_alive Hfs_ne) as [object' Hobject'].
    rewrite (run_bind _ _ _ _ _
               (glAttachShader_new program vs [] object _ _ _ _
                                   (lookup_insert_eq _ _ _) Hobject (not_elem_of_nil _))).
    assert (fs ∉ [vs]) as Hnew.
    { rewrite list_elem_of_singleton. intros ->. by apply Hdistinct. }
    rewrite (run_bind _ _ _ _ _
               (glAttachShader_new program fs [vs] object' _ _ _ _
                                   (lookup_insert_eq _ _ _) Hobject' Hnew)).
    rewrite !(run_bind _ _ _ _ _ (event_step _ _ _ _ _)).
    rewrite (run_bind _ _ _ _ _
               (glDeleteShader_attached vs program [vs; fs] _ _ _ _ Hvs_ne
                                        (lookup_insert_eq _ _ _) (list_elem_of_here _ _))).
    rewrite (run_bind _ _ _ _ _
               (glDeleteShader_attached fs program [vs; fs] _ _ _ _ Hfs_ne
                                        (lookup_insert_eq _ _ _)
                                        (list_elem_of_further _ _ _ (list_elem_of_here _ _)))).
    cbn. rewrite !insert_insert_eq, <- app_assoc.
    unfold mret, M_ret. do 3 f_equal. clear. set_solver.
Qed.

Lemma append_empty_r (s : string) : (s ++ "")%string = s.
Proof.
  induction s as [|a s IH]; [done|].
  change (String a (s ++ "")%string = String a s). by rewrite IH.
Qed.

Lemma append_associative (s t u : string) :
  ((s ++ t) ++ u)%string = (s ++ t ++ u)%string.
Proof.
  induction s as [|a s IH]; [done|].
  change (String a ((s ++ t) ++ u)%string = String a (s ++ t ++ u)%string).
  by rewrite IH.
Qed.

(** [compileShader] for a shader stage, by the outcome of the driver. *)
Lemma compileShader_outcome type source w :
  GL.is_shader_type type = true ->
  no_shader_zero (gl w) ->
  GL.upcoming (gl w) 0 <> 0 ->
  GL.glsl (gl w) type (c_str source) <> GL.Failed "" ->
  let outcome := GL.glsl (gl w) type (c_str source) in
  let id := stage_result outcome (GL.upcoming (gl w) 0) in
  exists w',
    compileShader type source w = Some (id, w') /\
    cerr w' = (cerr w ++ stage_diagnostic type outcome)%string /\
    no_shader_zero (gl w') /\
    (id <> 0 -> is_Some (GL.shaders (gl w') !! id)) /\
    (forall other, other <> GL.upcoming (gl w) 0 ->
       GL.shaders (gl w') !! other = GL.shaders (gl w) !! other) /\
    globals w' = globals w /\ windowShouldClose w' = windowShouldClose w /\
    files w' = files w /\
    GL.buffers (gl w') = GL.buffers (gl w) /\
    GL.glsl (gl w') = GL.glsl (gl w) /\
    GL.uniform_location (gl w') = GL.uniform_location (gl w) /\
    GL.names (gl w') = GL.names (gl w) /\
    GL.requests (gl w') = S (GL.requests (gl w)) /\
    GL.issued (gl w') = GL.issued (gl w).
Proof.
  intros Htype Hzero Hcreated Hlog outcome id. subst outcome id.
  rewrite compileShader_created by done.
  destruct (GL.glsl (gl w) type (c_str source)) as [|log].
  - eexists. split; [reflexivity|]. cbn.
    split; [by rewrite append_empty_r|].
    split; [unfold no_shader_zero; cbn; by rewrite lookup_insert_ne|].
    split; [intros _; by rewrite lookup_insert_eq|].
    split; [|done]. intros other Hother. by rewrite lookup_insert_ne.
  - destruct (decide (log = "")) as [->|_]; [done|].
    eexists. split; [reflexivity|]. cbn.
    split; [done|].
    split; [unfold no_shader_zero; cbn; by rewrite lookup_delete_ne|].
    split; [done|].
    split; [|done]. intros other Hother. by rewrite lookup_delete_ne.
Qed.

(** What [createShaderProgram] does, for the outcomes of the two
    compilations, when the driver creates the three objects. *)
Lemma createShaderProgram_outcome vertexShader fragmentShader s :
  let c := gl (Life.world s) in
  let program := GL.upcoming c 0 in
  let vertex := GL.glsl c GL.VERTEX_SHADER (c_str vertexShader) in
  let fragment := GL.glsl c GL.FRAGMENT_SHADER (c_str fragmentShader) in
  let vs := stage_result vertex (GL.upcoming c 1) in
  let fs := stage_result fragment (GL.upcoming c 2) in
  no_shader_zero c ->
  program <> 0 -> GL.upcoming c 1 <> 0 -> GL.upcoming c 2 <> 0 ->
  (vertex = GL.Compiled -> GL.upcoming c 1 <> GL.upcoming c 2) ->
  vertex <> GL.Failed "" ->
  fragment <> GL.Failed "" ->
  exists w',
    createShaderProgram vertexShader fragmentShader s
    = Some (program,
            Life.mkProcess w'
              (<[program := compiled_stages vs fs]> (Life.programs s))
              (Life.flagged s ∪ list_to_set (compiled_stages vs fs))
              (Life.events s ++ [Life.LinkProgram program; Life.ValidateProgram program])) /\
    (forall shader, shader ∈ compiled_stages vs fs ->
       is_Some (GL.shaders (gl w') !! shader)) /\
    no_shader_zero (gl w') /\
    cerr w' = (cerr (Life.world s)
               ++ stage_diagnostic GL.VERTEX_SHADER vertex
               ++ stage_diagnostic GL.FRAGMENT_SHADER fragment)%string /\
    globals w' = globals (Life.world s) /\
    windowShouldClose w' = windowShouldClose (Life.world s) /\
    files w' = files (Life.world s) /\
    GL.buffers (gl w') = GL.buffers c /\
    GL.glsl (gl w') = GL.glsl c /\
    GL.uniform_location (gl w') = GL.uniform_location c /\
    GL.names (gl w') = GL.names c /\
    GL.requests (gl w') = S (S (S (GL.requests c))) /\
    GL.issued (gl w') = GL.issued c.
Proof.
  intros c program vertex fragment vs fs Hzero Hprogram Hv Hf Hdistinct Hvertex Hfragment.
  set (w0 := set_gl (GL.set_requests (S (GL.requests c)) c) (Life.world s)).
  destruct (compileShader_outcome GL.VERTEX_SHADER vertexShader w0 eq_refl Hzero Hv Hvertex)
    as (w1 & Hvs & Hcerr1 & Hzero1 & Hvs_alive & Hothers1 & Hglobals1 & Hclose1 & Hfiles1
        & Hbuffers1 & Hglsl1 & Hloc1 & Hnames1 & Hrequests1 & Hissued1).
  assert (GL.upcoming (gl w1) 0 = GL.upcoming c 2) as Hname2.
  { unfold GL.upcoming. by rewrite Hnames1, Hrequests1. }
  destruct (compileShader_outcome GL.FRAGMENT_SHADER fragmentShader w1 eq_refl Hzero1)
    as (w2 & Hfs & Hcerr2 & Hzero2 & Hfs_alive & Hothers2 & Hglobals2 & Hclose2 & Hfiles2
        & Hbuffers2 & Hglsl2 & Hloc2 & Hnames2 & Hrequests2 & Hissued2).
  { by rewrite Hname2. }
  { by rewrite Hglsl1. }
  rewrite Hglsl1 in Hfs, Hcerr2, Hfs_alive. rewrite Hname2 in Hfs, Hfs_alive.
  change (GL.glsl (gl w0)) with (GL.glsl c) in *.
  change (GL.upcoming (gl w0) 0) with (GL.upcoming c 1) in *.
  fold vertex fragment vs fs in Hvs, Hfs, Hcerr1, Hcerr2, Hvs_alive, Hfs_alive.
  assert (vs <> 0 -> is_Some (GL.shaders (gl w2) !! vs) /\ vs <> GL.upcoming c 2)
    as Hvs_kept.
  { intros Hvs_ne. specialize (Hvs_alive Hvs_ne). subst vs.
    destruct vertex; [|done]. cbn in *.
    specialize (Hdistinct eq_refl). split; [|done].
    rewrite Hothers2; [done|]. by rewrite Hname2. }
  exists w2. split.
  { apply (createShaderProgram_spec vertexShader fragmentShader s vs w1 fs w2);
      try done.
    - intros Hvs_ne. by apply Hvs_kept.
    - intros Hvs_ne Hfs_ne. destruct (Hvs_kept Hvs_ne) as [_ Hne].
      subst fs. by destruct fragment. }
  split.
  { intros shader. rewrite compiled_stages_cases, elem_of_app.
    intros [Hin|Hin]; case_decide; try by apply not_elem_of_nil in Hin.
    - apply list_elem_of_singleton in Hin as ->. by apply Hvs_kept.
    - apply list_elem_of_singleton in Hin as ->. by apply Hfs_alive. }
  split; [done|].
  split. { rewrite Hcerr2, Hcerr1. cbn [w0 cerr set_gl]. by rewrite append_associative. }
  rewrite Hglobals2, Hglobals1, Hclose2, Hclose1, Hfiles2, Hfiles1, Hbuffers2, Hbuffers1,
    Hglsl2, Hglsl1, Hloc2, Hloc1, Hnames2, Hnames1, Hrequests2, Hrequests1, Hissued2,
    Hissued1.
  done.
Qed.

(** X14: when the driver creates the program and the two shader objects
    and no compilation fails without a log, [createShaderProgram] returns
    the name of the program, whether the stages compiled or not.  The
    stages attached to the program are those that compiled, the vertex
    stage before the fragment stage; a failed stage (the name 0) is not
    attached, and the program is linked and validated all the same. *)
Theorem X14_createShaderProgram_attaches (vertexShader fragmentShader : string)
    (s : Life.Process) :
  let c := gl (Life.world s) in
  let program := GL.upcoming c 0 in
  let vs := stage_result (GL.glsl c GL.VERTEX_SHADER (c_str vertexShader))
                         (GL.upcoming c 1) in
  let fs := stage_result (GL.glsl c GL.FRAGMENT_SHADER (c_str fragmentShader))
                         (GL.upcoming c 2) in
  serves c vertexShader fragmentShader ->
  exists s',
    createShaderProgram vertexShader fragmentShader s = Some (program, s') /\
    Life.programs s' = <[program := compiled_stages vs fs]> (Life.programs s) /\
    Life.events s'
    = Life.events s ++ [Life.LinkProgram program; Life.ValidateProgram program].
Proof.
  intros c program vs fs (Hzero & Hprogram & Hv & Hf & Hdistinct & Hvertex & Hfragment).
  destruct (createShaderProgram_outcome vertexShader fragmentShader s
              Hzero Hprogram Hv Hf Hdistinct Hvertex Hfragment) as (w' & Hrun & _).
  eexists. split; [exact Hrun|]. done.
Qed.

Lemma X14_createShaderProgram_attaches_witness :
  exists s',
    createShaderProgram "void main() {}" "" (fresh_process example_world) = Some (1, s') /\
    Life.programs s' = <[1 := [2]]> ∅ /\
    Life.events s' = [Life.LinkProgram 1; Life.ValidateProgram 1].
Proof.
  apply (X14_createShaderProgram_attaches "void main() {}" "" (fresh_process example_world)).
  unfold serves. repeat split; done.
Defined.

(** X15: the shader objects of the stages that compiled are still there
    when [createShaderProgram] returns: they are attached to the program,
    so the two [glDeleteShader] calls only flag them for deletion.  The
    buffers are untouched. *)
Theorem X15_createShaderProgram_shaders (vertexShader fragmentShader : string)
    (s : Life.Process) :
  let c := gl (Life.world s) in
  let vs := stage_result (GL.glsl c GL.VERTEX_SHADER (c_str vertexShader))
                         (GL.upcoming c 1) in
  let fs := stage_result (GL.glsl c GL.FRAGMENT_SHADER (c_str fragmentShader))
                         (GL.upcoming c 2) in
  serves c vertexShader fragmentShader ->
  exists s',
    exec (createShaderProgram vertexShader fragmentShader) s = Some s' /\
    (forall shader, shader ∈ compiled_stages vs fs ->
       is_Some (GL.shaders (gl (Life.world s')) !! shader)) /\
    Life.flagged s' = Life.flagged s ∪ list_to_set (compiled_stages vs fs) /\
    no_shader_zero (gl (Life.world s')) /\
    GL.buffers (gl (Life.world s')) = GL.buffers c.
Proof.
  intros c vs fs (Hzero & Hprogram & Hv & Hf & Hdistinct & Hvertex & Hfragment).
  destruct (createShaderProgram_outcome vertexShader fragmentShader s
              Hzero Hprogram Hv Hf Hdistinct Hvertex Hfragment)
    as (w' & Hrun & Halive & Hzero' & _ & _ & _ & _ & Hbuffers & _).
  eexists. split; [unfold exec; by rewrite Hrun|]. done.
Qed.

Lemma X15_createShaderProgram_shaders_witness :
  exists s',
    exec (createShaderProgram "void main() {}" "") (fresh_process example_world) = Some s' /\
    (forall shader, shader ∈ compiled_stages 2 0 ->
       is_Some (GL.shaders (gl (Life.world s')) !! shader)) /\
    Life.flagged s' = ∅ ∪ list_to_set (compiled_stages 2 0) /\
    no_shader_zero (gl (Life.world s')) /\
    GL.buffers (gl (Life.world s')) = ∅.
Proof.
  apply (X15_createShaderProgram_shaders "void main() {}" "" (fresh_process example_world)).
  unfold serves. repeat split; done.
Defined.

(** X16: [createShaderProgram] writes to [std::cerr] the diagnostic of the
    vertex stage, if that failed, and then the diagnostic of the fragment
    stage, if that failed; the camera, the close flag and the files are
    what they were. *)
Theorem X16_createShaderProgram_diagnostics (vertexShader fragmentShader : string)
    (s : Life.Process) :
  let c := gl (Life.world s) in
  serves c vertexShader fragmentShader ->
  exists s',
    exec (createShaderProgram vertexShader fragmentShader) s = Some s' /\
    cerr (Life.world s')
    = (cerr (Life.world s)
       ++ stage_diagnostic GL.VERTEX_SHADER
            (GL.glsl c GL.VERTEX_SHADER (c_str vertexShader))
       ++ stage_diagnostic GL.FRAGMENT_SHADER
            (GL.glsl c GL.FRAGMENT_SHADER (c_str fragmentShader)))%string /\
    globals (Life.world s') = globals (Life.world s) /\
    windowShouldClose (Life.world s') = windowShouldClose (Life.world s) /\
    files (Life.world s') = files (Life.world s).
Proof.
  intros c (Hzero & Hprogram & Hv & Hf & Hdistinct & Hvertex & Hfragment).
  destruct (createShaderProgram_outcome vertexShader fragmentShader s
              Hzero Hprogram Hv Hf Hdistinct Hvertex Hfragment)
    as (w' & Hrun & _ & _ & Hcerr & Hglobals & Hclose & Hfiles & _).
  eexists. split; [unfold exec; by rewrite Hrun|]. done.
Qed.

Lemma X16_createShaderProgram_diagnostics_witness :
  exists s',
    exec (createShaderProgram "" "") (fresh_process example_world) = Some s' /\
    cerr (Life.world s')
    = ("" ++ compile_diagnostic GL.VERTEX_SHADER "ERROR: 0:1: syntax error"
          ++ compile_diagnostic GL.FRAGMENT_SHADER "ERROR: 0:1: syntax error")%string /\
    globals (Life.world s') = initial_globals /\
    windowShouldClose (Life.world s') = false /\
    files (Life.world s') = {[ "vertex_shader.glsl" := "void main() {}" ]}.
Proof.
  apply (X16_createShaderProgram_diagnostics "" "" (fresh_process example_world)).
  unfold serves. repeat split; done.
Defined.

(** ** [main] *)

Lemma readFile_effect (filePath : string) (w : World) :
  exists w',
    readFile filePath w = Some (default "" (files w !! filePath), w') /\
    cerr w' = (cerr w ++ read_diagnostic filePath w)%string /\
    globals w' = globals w /\ windowShouldClose w' = windowShouldClose w /\
    files w' = files w /\ gl w' = gl w.
Proof.
  assert (gets (fun w => files w !! filePath) w = Some (files w !! filePath, w)) as Hopen
    by reflexivity.
  unfold readFile, read_diagnostic. rewrite (run_bind _ _ _ _ _ Hopen).
  destruct (files w !! filePath) as [contents|].
  - exists w. by rewrite append_empty_r.
  - eexists. split; [reflexivity|]. done.
Qed.

Lemma uploadGeometry_effect (w : World) :
  let VAO := GL.upcoming (gl w) 0 in
  let VBO := GL.upcoming (gl w) 1 in
  let EBO := GL.upcoming (gl w) 2 in
  exists w',
    uploadGeometry w = Some ((VAO, VBO, EBO), w') /\
    globals w' = globals w /\ windowShouldClose w' = windowShouldClose w /\
    files w' = files w /\ cerr w' = cerr w /\
    GL.shaders (gl w') = GL.shaders (gl w) /\
    draws (GL.issued (gl w')) = draws (GL.issued (gl w)) /\
    GL.buffers (gl w')
    = <[EBO := GL.UInts indices]> (<[VBO := GL.Floats vertices]> (GL.buffers (gl w))).
Proof.
  destruct w as [g closing fs err [drv loc nm n sh bf ab eb iss]].
  unfold uploadGeometry, GL.glGenVertexArrays, GL.glGenBuffers.
  do 3 (rewrite (run_bind _ _ _ _ _ (in_gl_gen_name _));
        cbn [gl set_gl GL.requests GL.set_requests]).
  rewrite (run_bind _ _ _ _ _ (in_gl_call _ _)).
  rewrite (run_bind _ _ _ _ _ (in_gl_glBindBuffer _ _ _)).
  rewrite (run_bind _ _ _ _ _ (in_gl_glBufferData _ _ _ _ _)).
  rewrite (run_bind _ _ _ _ _ (in_gl_glBindBuffer _ _ _)).
  rewrite (run_bind _ _ _ _ _ (in_gl_glBufferData _ _ _ _ _)).
  do 4 rewrite (run_bind _ _ _ _ _ (in_gl_call _ _)).
  eexists. split; [reflexivity|]. do 5 (split; [reflexivity|]).
  split.
  - cbn [gl set_gl GL.issued GL.issue GL.set_binding GL.set_buffers].
    rewrite !draws_app.
    repeat match goal with
           | |- context [draws [?k]] => change (draws [k]) with 0%nat
           end.
    cbn [GL.issued GL.set_requests]. lia.
  - unfold GL.upcoming.
    cbn [gl set_gl GL.buffers GL.set_buffers GL.issue GL.set_binding GL.set_requests
         GL.names GL.requests GL.array_buffer_binding GL.element_array_buffer_binding
         Nat.add].
    change (GL.ARRAY_BUFFER =? GL.ARRAY_BUFFER) with true.
    change (GL.ELEMENT_ARRAY_BUFFER =? GL.ARRAY_BUFFER) with false.
    change (GL.ELEMENT_ARRAY_BUFFER =? GL.ELEMENT_ARRAY_BUFFER) with true.
    cbv iota. by rewrite !take_sizeof.
Qed.



Section MainRuns.

Variable perspective : f32.t -> f32.t -> f32.t -> f32.t -> glm.mat4.
Variable radians : f32.t -> f32.t.
Variable platform : Life.Platform.
Variable polls : list Input.

Local Abbreviation main' := (main perspective radians platform polls).

(** [main] up to the request for the window. *)
Lemma main_startup (rest : M Life.Process (option Z)) w ps fl ev :
  (Life.event Life.Init;;
   Life.event (Life.WindowHint Life.CONTEXT_VERSION_MAJOR 3);;
   Life.event (Life.WindowHint Life.CONTEXT_VERSION_MINOR 3);;
   Life.event (Life.WindowHint Life.OPENGL_PROFILE Life.OPENGL_CORE_PROFILE);;
   when (Life.apple platform) (Life.event (Life.WindowHint Life.OPENGL_FORWARD_COMPAT 1));;
   Life.event (Life.CreateWindow 800 600 "OpenGL Pyramid");;
   rest) (Life.mkProcess w ps fl ev)
  = rest (Life.mkProcess w ps fl (ev ++ startup_events platform)).
Proof.
  do 4 rewrite (run_bind _ _ _ _ _ (event_step _ _ _ _ _)).
  unfold startup_events.
  destruct (Life.apple platform); cbn [when].
  - do 2 rewrite (run_bind _ _ _ _ _ (event_step _ _ _ _ _)).
    by rewrite <- !app_assoc.
  - unfold mret at 1, M_ret at 1. unfold mbind at 1, M_bind at 1.
    rewrite (run_bind _ _ _ _ _ (event_step _ _ _ _ _)).
    by rewrite <- !app_assoc.
Qed.

(** X17: when the window cannot be created, [main] returns -1 after it
    has written its diagnostic and called [glfwTerminate]: no context is
    made current, no file is read and no GL object is created. *)
Theorem X17_main_without_window (s : Life.Process) :
  Life.creates_window platform = false ->
  main' s
  = Some (Some (-1),
          Life.mkProcess
            (mkWorld (globals (Life.world s)) (windowShouldClose (Life.world s))
                     (files (Life.world s))
                     (cerr (Life.world s) ++ "Failed to create GLFW window" ++ nl)
                     (gl (Life.world s)))
            (Life.programs s) (Life.flagged s)
            (Life.events s ++ startup_events platform ++ [Life.Terminate])).
Proof.
  intros Hwindow. destruct s as [w ps fl ev]. unfold main.
  rewrite main_startup. rewrite Hwindow. cbn [negb].
  by rewrite app_assoc.
Qed.

(** X18: when the window exists but the GL functions cannot be loaded,
    [main] returns -1 after its diagnostic, and here it does not call
    [glfwTerminate]: the loader is the last call it makes. *)
Theorem X18_main_without_loader (s : Life.Process) :
  Life.creates_window platform = true ->
  Life.loads_gl platform = false ->
  main' s
  = Some (Some (-1),
          Life.mkProcess
            (mkWorld (globals (Life.world s)) (windowShouldClose (Life.world s))
                     (files (Life.world s))
                     (cerr (Life.world s) ++ "Failed to initialize GLAD" ++ nl)
                     (gl (Life.world s)))
            (Life.programs s) (Life.flagged s)
            (Life.events s ++ startup_events platform
               ++ [Life.MakeContextCurrent; Life.SetFramebufferSizeCallback;
                   Life.LoadGLLoader])).
Proof.
  intros Hwindow Hloader. destruct s as [w ps fl ev]. unfold main.
  rewrite main_startup. rewrite Hwindow. cbn [negb].
  do 3 rewrite (run_bind _ _ _ _ _ (event_step _ _ _ _ _)).
  rewrite Hloader. cbn [negb].
  by rewrite <- !app_assoc.
Qed.

(** [main] once the window and the GL functions are there. *)
Lemma main_runs (s : Life.Process) :
  let w := Life.world s in
  let c := gl w in
  let program := GL.upcoming c 0 in
  let VAO := GL.upcoming c 3 in
  let VBO := GL.upcoming c 4 in
  let EBO := GL.upcoming c 5 in
  let vertexShaderSource := default "" (files w !! "vertex_shader.glsl") in
  let fragmentShaderSource := default "" (files w !! "fragment_shader.glsl") in
  let vertex := GL.glsl c GL.VERTEX_SHADER (c_str vertexShaderSource) in
  let fragment := GL.glsl c GL.FRAGMENT_SHADER (c_str fragmentShaderSource) in
  let vs := stage_result vertex (GL.upcoming c 1) in
  let fs := stage_result fragment (GL.upcoming c 2) in
  Life.creates_window platform = true ->
  Life.loads_gl platform = true ->
  starts w ->
  serves c vertexShaderSource fragmentShaderSource ->
  exists w',
    main' s
    = Some (if close_seen polls then Some 0 else None,
            Life.mkProcess w'
              (<[program := compiled_stages vs fs]> (Life.programs s))
              (Life.flagged s ∪ list_to_set (compiled_stages vs fs))
              (Life.events s ++ startup_events platform ++ setup_events program
                 ++ if close_seen polls then cleanup_events program VAO VBO EBO
                    else [])) /\
    reachable w' /\
    windowShouldClose w' = close_seen polls /\
    cerr w'
    = (cerr w ++ read_diagnostic "vertex_shader.glsl" w
              ++ read_diagnostic "fragment_shader.glsl" w
              ++ stage_diagnostic GL.VERTEX_SHADER vertex
              ++ stage_diagnostic GL.FRAGMENT_SHADER fragment)%string /\
    files w' = files w /\
    draws (GL.issued (gl w'))
    = (draws (GL.issued c) + 3 * frames_drawn polls false)%nat.
Proof.
  intros w c program VAO VBO EBO vertexShaderSource fragmentShaderSource vertex fragment
    vs fs Hwindow Hloader Hstarts
    (Hzero & Hprogram & Hv & Hf & Hdistinct & Hvertex & Hfragment).
  destruct s as [w0 ps fl ev]. cbn [Life.world Life.programs Life.flagged Life.events] in *.
  subst w. unfold main.
  rewrite main_startup. rewrite Hwindow. cbn [negb].
  do 3 rewrite (run_bind _ _ _ _ _ (event_step _ _ _ _ _)).
  rewrite Hloader. cbn [negb].
  destruct (readFile_effect "vertex_shader.glsl" w0)
    as (w1 & Hread1 & Hcerr1 & Hglobals1 & Hclose1 & Hfiles1 & Hgl1).
  step_world Hread1. cbn [Life.world Life.programs Life.flagged Life.events].
  destruct (readFile_effect "fragment_shader.glsl" w1)
    as (w2 & Hread2 & Hcerr2 & Hglobals2 & Hclose2 & Hfiles2 & Hgl2).
  rewrite Hfiles1 in Hread2.
  step_world Hread2. cbn [Life.world Life.programs Life.flagged Life.events].
  match goal with
  | |- context [Life.mkProcess w2 ps fl ?events] => set (ev2 := events)
  end.
  destruct (createShaderProgram_outcome vertexShaderSource fragmentShaderSource
              (Life.mkProcess w2 ps fl ev2))
    as (w3 & Hcreate & _ & _ & Hcerr3 & Hglobals3 & Hclose3 & Hfiles3
        & _ & _ & _ & Hnames3 & Hrequests3 & Hissued3).
  1-7: cbn [Life.world]; by rewrite Hgl2, Hgl1.
  cbn [Life.world Life.programs Life.flagged Life.events] in Hcreate, Hcerr3,
    Hglobals3, Hclose3, Hfiles3, Hnames3, Hrequests3, Hissued3.
  rewrite Hgl2, Hgl1 in Hcreate, Hcerr3, Hnames3, Hrequests3, Hissued3.
  fold c program vertex fragment vs fs in Hcreate, Hcerr3.
  fold c in Hnames3, Hrequests3, Hissued3.
  fold vertexShaderSource fragmentShaderSource.
  rewrite (run_bind _ _ _ _ _ Hcreate).
  destruct (uploadGeometry_effect w3)
    as (w4 & Hupload & Hglobals4 & Hclose4 & Hfiles4 & Hcerr4 & _ & Hdraws4 & _).
  unfold GL.upcoming in Hupload. rewrite Hnames3, Hrequests3 in Hupload.
  change (GL.names c (0 + S (S (S (GL.requests c))))) with VAO in Hupload.
  change (GL.names c (1 + S (S (S (GL.requests c))))) with VBO in Hupload.
  change (GL.names c (2 + S (S (S (GL.requests c))))) with EBO in Hupload.
  step_world Hupload. cbn [Life.world Life.programs Life.flagged Life.events].
  assert (reachable w4) as Hreach4.
  { apply reachable_start. destruct Hstarts as [Hglobals Hclose]. split.
    - by rewrite Hglobals4, Hglobals3, Hglobals2, Hglobals1.
    - by rewrite Hclose4, Hclose3, Hclose2, Hclose1. }
  destruct (renderLoop_runs matrix_transform.lookAt perspective radians program VAO polls w4
              Hreach4)
    as (w5 & Hloop & Hreach5 & Hdraws5 & Hfiles5 & Hcerr5 & _ & _ & _ & Hclose5).
  assert (windowShouldClose w4 = false) as Hopen.
  { destruct Hstarts as [_ Hclose]. by rewrite Hclose4, Hclose3, Hclose2, Hclose1. }
  rewrite Hopen in Hdraws5, Hclose5. cbn [orb] in Hclose5.
  step_world Hloop. cbn [Life.world Life.programs Life.flagged Life.events].
  unfold gets at 1. unfold mbind at 1, M_bind at 1. cbn [Life.world].
  exists w5. rewrite Hclose5.
  split.
  { destruct (close_seen polls).
    - do 5 rewrite (run_bind _ _ _ _ _ (event_step _ _ _ _ _)).
      unfold mret, M_ret. do 3 f_equal. subst ev2.
      unfold setup_events, cleanup_events. by rewrite <- !app_assoc.
    - unfold mret, M_ret. do 3 f_equal. subst ev2.
      unfold setup_events. by rewrite <- !app_assoc. }
  split; [exact Hreach5|]. split; [reflexivity|].
  split.
  { rewrite Hcerr5, Hcerr4, Hcerr3, Hcerr2, Hcerr1.
    unfold read_diagnostic at 2. rewrite Hfiles1.
    fold (read_diagnostic "fragment_shader.glsl" w0).
    by rewrite !append_associative. }
  split; [by rewrite Hfiles5, Hfiles4, Hfiles3, Hfiles2, Hfiles1|].
  by rewrite Hdraws5, Hdraws4, Hissued3.
Qed.

(** X19: once the window and the GL functions are there and the driver
    serves the two shader sources, [main] gets to the render loop even
    when a shader file is missing or a stage does not compile.  It ends
    with exit code 0 exactly when one of the iterations leaves the close
    flag set, because Escape is down or because the user asks to close the
    window: then it has released the vertex array, the two buffers and
    the program, in this order, and called [glfwTerminate].  Otherwise the
    inputs end with the window still open. *)
Theorem X19_main_exit (s : Life.Process) :
  let w := Life.world s in
  let c := gl w in
  let program := GL.upcoming c 0 in
  let VAO := GL.upcoming c 3 in
  let VBO := GL.upcoming c 4 in
  let EBO := GL.upcoming c 5 in
  Life.creates_window platform = true ->
  Life.loads_gl platform = true ->
  starts w ->
  serves c (default "" (files w !! "vertex_shader.glsl"))
           (default "" (files w !! "fragment_shader.glsl")) ->
  exists s',
    main' s = Some (if close_seen polls then Some 0 else None, s') /\
    windowShouldClose (Life.world s') = close_seen polls /\
    Life.events s'
    = Life.events s ++ startup_events platform ++ setup_events program
        ++ if close_seen polls then cleanup_events program VAO VBO EBO else [].
Proof.
  intros w c program VAO VBO EBO Hwindow Hloader Hstarts Hserves.
  destruct (main_runs s Hwindow Hloader Hstarts Hserves) as (w' & Hrun & _ & Hclose & _).
  eexists. split; [exact Hrun|]. done.
Qed.

(** X20: in such a run [std::cerr] receives the diagnostics of the two
    files first and those of the two stages after them, vertex before
    fragment each time; the loop adds nothing.  The files are not
    changed, and [glDrawElements] is called three times for every frame
    drawn and not otherwise. *)
Theorem X20_main_output (s : Life.Process) :
  let w := Life.world s in
  let c := gl w in
  let vertexShaderSource := default "" (files w !! "vertex_shader.glsl") in
  let fragmentShaderSource := default "" (files w !! "fragment_shader.glsl") in
  Life.creates_window platform = true ->
  Life.loads_gl platform = true ->
  starts w ->
  serves c vertexShaderSource fragmentShaderSource ->
  exists s',
    exec main' s = Some s' /\
    cerr (Life.world s')
    = (cerr w ++ read_diagnostic "vertex_shader.glsl" w
              ++ read_diagnostic "fragment_shader.glsl" w
              ++ stage_diagnostic GL.VERTEX_SHADER
                   (GL.glsl c GL.VERTEX_SHADER (c_str vertexShaderSource))
              ++ stage_diagnostic GL.FRAGMENT_SHADER
                   (GL.glsl c GL.FRAGMENT_SHADER (c_str fragmentShaderSource)))%string /\
    files (Life.world s') = files w /\
    draws (GL.issued (gl (Life.world s')))
    = (draws (GL.issued c) + 3 * frames_drawn polls false)%nat.
Proof.
  intros w c vertexShaderSource fragmentShaderSource Hwindow Hloader Hstarts Hserves.
  destruct (main_runs s Hwindow Hloader Hstarts Hserves)
    as (w' & Hrun & _ & _ & Hcerr & Hfiles & Hdraws).
  eexists. split; [unfold exec; by rewrite Hrun|]. done.
Qed.

End MainRuns.

Lemma X17_main_without_window_witness :
  main (fun _ _ _ _ => glm.mat4_1) (fun r => r) (Life.mkPlatform false false true) []
       (fresh_process example_world)
  = Some (Some (-1),
          Life.mkProcess
            (mkWorld initial_globals false (files example_world)
                     ("" ++ "Failed to create GLFW window" ++ nl) example_context)
            ∅ ∅
            ([] ++ startup_events (Life.mkPlatform false false true) ++ [Life.Terminate])).
Proof.
  apply (X17_main_without_window (fun _ _ _ _ => glm.mat4_1) (fun r => r)
           (Life.mkPlatform false false true) [] (fresh_process example_world)).
  reflexivity.
Defined.

Lemma X18_main_without_loader_witness :
  main (fun _ _ _ _ => glm.mat4_1) (fun r => r) (Life.mkPlatform true true false) []
       (fresh_process example_world)
  = Some (Some (-1),
          Life.mkProcess
            (mkWorld initial_globals false (files example_world)
                     ("" ++ "Failed to initialize GLAD" ++ nl) example_context)
            ∅ ∅
            ([] ++ startup_events (Life.mkPlatform true true false)
                ++ [Life.MakeContextCurrent; Life.SetFramebufferSizeCallback;
                    Life.LoadGLLoader])).
Proof.
  apply (X18_main_without_loader (fun _ _ _ _ => glm.mat4_1) (fun r => r)
           (Life.mkPlatform true true false) [] (fresh_process example_world)).
  - reflexivity.
  - reflexivity.
Defined.

Lemma X19_main_exit_witness :
  exists s',
    main (fun _ _ _ _ => glm.mat4_1) (fun r => r) (Life.mkPlatform false true true)
         [just_keys (only 2); mkInput (pressed []) [(640%Z, 480%Z)] true; just_keys (only 1)]
         (fresh_process example_world)
    = Some (Some 0, s') /\
    windowShouldClose (Life.world s') = true /\
    Life.events s'
    = [] ++ startup_events (Life.mkPlatform false true true) ++ setup_events 1
         ++ cleanup_events 1 4 5 6.
Proof.
  apply (X19_main_exit (fun _ _ _ _ => glm.mat4_1) (fun r => r)
           (Life.mkPlatform false true true)
           [just_keys (only 2); mkInput (pressed []) [(640%Z, 480%Z)] true;
            just_keys (only 1)]
           (fresh_process example_world)).
  - reflexivity.
  - reflexivity.
  - split; reflexivity.
  - unfold serves. repeat split; done.
Defined.

Lemma X20_main_output_witness :
  exists s',
    exec (main (fun _ _ _ _ => glm.mat4_1) (fun r => r) (Life.mkPlatform false true true)
               [just_keys (only 2); just_keys (pressed [GLFW.KEY_ESCAPE]);
                just_keys (only 1)])
         (fresh_process example_world)
    = Some s' /\
    cerr (Life.world s')
    = ("" ++ "" ++ read_diagnostic "fragment_shader.glsl" example_world
          ++ ""
          ++ compile_diagnostic GL.FRAGMENT_SHADER "ERROR: 0:1: syntax error")%string /\
    files (Life.world s') = files example_world /\
    draws (GL.issued (gl (Life.world s'))) = (0 + 3 * 2)%nat.
Proof.
  apply (X20_main_output (fun _ _ _ _ => glm.mat4_1) (fun r => r)
           (Life.mkPlatform false true true)
           [just_keys (only 2); just_keys (pressed [GLFW.KEY_ESCAPE]); just_keys (only 1)]
           (fresh_process example_world)).
  - reflexivity.
  - reflexivity.
  - split; reflexivity.
  - unfold serves. repeat split; done.
Defined.
